(** * Expo order API: TTL cache, upstream fetch with mock fallback, derived views

    A shallow embedding of [src/app.py].  The Flask application keeps one
    process-wide dictionary [CACHE] that maps a string key to a pair
    (payload, time of storage); every route reads the full order list through
    [load_orders_from_abacus] and derives a view from it.

    Python values are embedded as a small universe [pyval]; the handlers run
    in a state-and-exception monad over a [world] that holds the cache, the
    log written through [logger], and the number of calls made so far to
    [datetime.now()] and to [abacus_manager.get_orders_data].  The clock and
    the upstream are oracles: the n-th call reads [clock n], respectively
    [source n].

    Limits of the embedding, stated once:
    - strings are byte strings and [lower] is ASCII lower-casing, so the
      development speaks about ASCII text;
    - floating point payloads are left out of [pyval], and so is every object
      that Flask cannot serialise: [jsonify] never raises on a [pyval], and
      nothing is said about requests whose payload would make it raise;
    - requests are handled one after the other. *)

From Stdlib Require Import ZArith String Ascii List Bool Lia.
From stdpp Require Import gmap strings list fin_maps.

Local Open Scope string_scope.
Local Open Scope Z_scope.
Local Set Warnings "-register-all".

(** ** Python values *)

Inductive pyval : Type :=
| PNone
| PBool (b : bool)
| PInt (z : Z)
| PStr (s : string)
| PList (l : list pyval)
| PDict (d : list (string * pyval)).

(** Exceptions, all of them subclasses of [Exception].  [Exception_] is the
    base class raised by hand in the source and also stands for whatever the
    upstream client raises. *)
Inductive exn : Type :=
| KeyError (k : string)
| TypeError (msg : string)
| AttributeError (msg : string)
| Exception_ (msg : string).

Inductive outcome (A : Type) : Type :=
| Ret (a : A)
| Raise (e : exn).
Arguments Ret {A} a.
Arguments Raise {A} e.

Definition obind {A B} (o : outcome A) (k : A -> outcome B) : outcome B :=
  match o with
  | Ret a => k a
  | Raise e => Raise e
  end.

Notation "x <~ c ;; k" := (obind c (fun x => k))
  (at level 100, c at next level, right associativity).

(** [str(e)]: a [KeyError] prints the repr of its key. *)
Definition str_exn (e : exn) : string :=
  match e with
  | KeyError k => "'" ++ k ++ "'"
  | TypeError msg => msg
  | AttributeError msg => msg
  | Exception_ msg => msg
  end.

Definition type_name (v : pyval) : string :=
  match v with
  | PNone => "NoneType"
  | PBool _ => "bool"
  | PInt _ => "int"
  | PStr _ => "str"
  | PList _ => "list"
  | PDict _ => "dict"
  end.

(** Truth value of an object, as tested by [if x:] and [x and y]. *)
Definition truthy (v : pyval) : bool :=
  match v with
  | PNone => false
  | PBool b => b
  | PInt z => negb (z =? 0)
  | PStr s => negb (String.eqb s EmptyString)
  | PList l => match l with [] => false | _ => true end
  | PDict d => match d with [] => false | _ => true end
  end.

(** [len(x)] *)
Definition py_len (v : pyval) : outcome Z :=
  match v with
  | PStr s => Ret (Z.of_nat (String.length s))
  | PList l => Ret (Z.of_nat (length l))
  | PDict d => Ret (Z.of_nat (length d))
  | _ => Raise (TypeError ("object of type '" ++ type_name v ++ "' has no len()"))
  end.

Fixpoint dict_get (d : list (string * pyval)) (k : string) : option pyval :=
  match d with
  | [] => None
  | (k', v) :: d' => if String.eqb k' k then Some v else dict_get d' k
  end.

(** [x[k]] for a string literal [k] *)
Definition py_getitem (v : pyval) (k : string) : outcome pyval :=
  match v with
  | PDict d => match dict_get d k with
               | Some x => Ret x
               | None => Raise (KeyError k)
               end
  | PList _ => Raise (TypeError "list indices must be integers or slices, not str")
  | PStr _ => Raise (TypeError "string indices must be integers, not 'str'")
  | _ => Raise (TypeError ("'" ++ type_name v ++ "' object is not subscriptable"))
  end.

Definition ascii_lower (c : ascii) : ascii :=
  let n := nat_of_ascii c in
  if ((65 <=? n) && (n <=? 90))%nat then ascii_of_nat (n + 32) else c.

Fixpoint lower (s : string) : string :=
  match s with
  | EmptyString => EmptyString
  | String c s' => String (ascii_lower c) (lower s')
  end.

(** [x.lower()]: only [str] has the method. *)
Definition py_lower (v : pyval) : outcome string :=
  match v with
  | PStr s => Ret (lower s)
  | _ => Raise (AttributeError ("'" ++ type_name v ++ "' object has no attribute 'lower'"))
  end.

(** [x == s] for a string [s]: no other built-in value equals a string. *)
Definition py_eq_str (v : pyval) (s : string) : bool :=
  match v with
  | PStr s' => String.eqb s' s
  | _ => false
  end.

Fixpoint chars (s : string) : list pyval :=
  match s with
  | EmptyString => []
  | String c s' => PStr (String c EmptyString) :: chars s'
  end.

(** The items a [for] loop or a comprehension runs over. *)
Definition py_iter (v : pyval) : outcome (list pyval) :=
  match v with
  | PList l => Ret l
  | PDict d => Ret (map (fun kv => PStr (fst kv)) d)
  | PStr s => Ret (chars s)
  | _ => Raise (TypeError ("'" ++ type_name v ++ "' object is not iterable"))
  end.

(** [[o for o in items if cond(o)]]: the items are visited in order and the
    first condition that raises ends the comprehension. *)
Fixpoint comprehension (cond : pyval -> outcome bool) (items : list pyval)
  : outcome (list pyval) :=
  match items with
  | [] => Ret []
  | o :: rest =>
      c <~ cond o ;;
      keep <~ comprehension cond rest ;;
      Ret (if c then o :: keep else keep)
  end.

(** [order[field].lower() == needle.lower()] *)
Definition field_matches (field needle : string) (order : pyval) : outcome bool :=
  v <~ py_getitem order field ;;
  s <~ py_lower v ;;
  Ret (String.eqb s (lower needle)).

(** [o['status'] == status] *)
Definition status_is (status : string) (o : pyval) : outcome bool :=
  v <~ py_getitem o "status" ;;
  Ret (py_eq_str v status).

(** ** The dictionary of the roster loop

    [exhibitors_dict] is keyed by whatever [order['exhibitor_name']] holds and
    keeps its keys in the order of first insertion.  Lists and dictionaries
    cannot be hashed; [True] and [1] (and [False] and [0]) are one key. *)

Record exhibitor_entry : Type := mkEntry {
  name : pyval;
  booth : pyval;
  total_orders : Z;
  delivered_orders : Z
}.

Definition hashable (v : pyval) : bool :=
  match v with
  | PList _ | PDict _ => false
  | _ => true
  end.

Definition key_eqb (a b : pyval) : bool :=
  match a, b with
  | PNone, PNone => true
  | PStr s, PStr t => String.eqb s t
  | PInt x, PInt y => x =? y
  | PBool x, PBool y => Bool.eqb x y
  | PBool x, PInt y => Z.b2z x =? y
  | PInt x, PBool y => x =? Z.b2z y
  | _, _ => false
  end.

Fixpoint key_in (k : pyval) (d : list (pyval * exhibitor_entry)) : bool :=
  match d with
  | [] => false
  | (k', _) :: d' => key_eqb k' k || key_in k d'
  end.

(** [k in d], which hashes [k] first *)
Definition dict_contains (d : list (pyval * exhibitor_entry)) (k : pyval) : outcome bool :=
  if hashable k then Ret (key_in k d)
  else Raise (TypeError ("unhashable type: '" ++ type_name k ++ "'")).

(** [d[k] = f(d[k])] for a key that is present *)
Fixpoint dict_update (f : exhibitor_entry -> exhibitor_entry) (k : pyval)
    (d : list (pyval * exhibitor_entry)) : list (pyval * exhibitor_entry) :=
  match d with
  | [] => []
  | (k', e) :: d' =>
      if key_eqb k' k then (k', f e) :: d' else (k', e) :: dict_update f k d'
  end.

Definition incr_total (e : exhibitor_entry) : exhibitor_entry :=
  mkEntry (name e) (booth e) (total_orders e + 1) (delivered_orders e).

Definition incr_delivered (e : exhibitor_entry) : exhibitor_entry :=
  mkEntry (name e) (booth e) (total_orders e) (delivered_orders e + 1).

Definition entry_to_dict (e : exhibitor_entry) : pyval :=
  PDict [("name", name e); ("booth", booth e);
         ("total_orders", PInt (total_orders e));
         ("delivered_orders", PInt (delivered_orders e))].

(** The body of [for order in orders:] in [get_exhibitors], run over the
    remaining orders with the dictionary built so far. *)
Fixpoint roster_loop (orders : list pyval) (exhibitors_dict : list (pyval * exhibitor_entry))
  : outcome (list (pyval * exhibitor_entry)) :=
  match orders with
  | [] => Ret exhibitors_dict
  | order :: rest =>
      exhibitor_name <~ py_getitem order "exhibitor_name" ;;
      booth_number <~ py_getitem order "booth_number" ;;
      present <~ dict_contains exhibitors_dict exhibitor_name ;;
      let d1 := if present then exhibitors_dict
                else (exhibitors_dict
                        ++ [(exhibitor_name, mkEntry exhibitor_name booth_number 0 0)])%list in
      let d2 := dict_update incr_total exhibitor_name d1 in
      status <~ py_getitem order "status" ;;
      let d3 := if py_eq_str status "delivered"
                then dict_update incr_delivered exhibitor_name d2 else d2 in
      roster_loop rest d3
  end.

(** ** The world and the monad of handlers *)

(** One line written through [logger]; the texts of the source are kept as
    constructors with their interpolated arguments. *)
Inductive log_record : Type :=
| LogCacheBypassed (key : string)
| LogUsingCached (key : string)
| LogCached (key : string)
| LogFetching
| LogLoaded (n : Z)
| LogForceRefresh
| LogLoadError (e : exn)
| LogFallback
| LogManualRefresh (what : string)
| LogBoothError (booth_number : string) (e : exn)
| LogExhibitorError (exhibitor_name : string) (e : exn)
| LogExhibitorsError (e : exn)
| LogCacheCleared.

(** [log] lists the most recent line first. *)
Record world : Type := mkWorld {
  CACHE : gmap string (pyval * Z);
  now_calls : nat;
  fetch_calls : nat;
  log : list log_record
}.

Definition M (A : Type) : Type := world -> outcome A * world.

Definition ret {A} (a : A) : M A := fun w => (Ret a, w).
Definition raise {A} (e : exn) : M A := fun w => (Raise e, w).
Definition bind {A B} (m : M A) (k : A -> M B) : M B :=
  fun w => match m w with
           | (Ret a, w') => k a w'
           | (Raise e, w') => (Raise e, w')
           end.
Definition lift {A} (o : outcome A) : M A := fun w => (o, w).

(** [try: body except Exception as e: handler e] *)
Definition try_except {A} (body : M A) (handler : exn -> M A) : M A :=
  fun w => match body w with
           | (Ret a, w') => (Ret a, w')
           | (Raise e, w') => handler e w'
           end.

Notation "x <-- c ;; k" := (bind c (fun x => k))
  (at level 100, c at next level, right associativity).
Notation "c ;;; k" := (bind c (fun _ => k))
  (at level 100, right associativity).

Definition logger (r : log_record) : M unit :=
  fun w => (Ret tt, mkWorld (CACHE w) (now_calls w) (fetch_calls w) (r :: log w)).

(** Time is counted in microseconds, the resolution of [datetime]. *)
Definition timedelta_seconds (s : Z) : Z := s * 1000000.

Definition CACHE_DURATION : Z := 120.

Definition get_mock_orders : pyval :=
  PList [
    PDict [("id", PStr "ORD-2025-001");
           ("booth_number", PStr "A-245");
           ("exhibitor_name", PStr "TechFlow Innovations");
           ("item", PStr "Premium Booth Setup Package");
           ("description",
            PStr "Complete booth installation with premium furniture, lighting, and tech setup");
           ("color", PStr "White");
           ("quantity", PInt 1);
           ("status", PStr "out-for-delivery");
           ("order_date", PStr "June 14, 2025");
           ("comments", PStr "Rush delivery requested");
           ("section", PStr "Section A")];
    PDict [("id", PStr "ORD-2025-002");
           ("booth_number", PStr "A-245");
           ("exhibitor_name", PStr "TechFlow Innovations");
           ("item", PStr "Interactive Display System");
           ("description", PStr ("75" ++ String "034"%char
              " 4K touchscreen display with interactive software and mounting"));
           ("color", PStr "Black");
           ("quantity", PInt 1);
           ("status", PStr "in-route");
           ("order_date", PStr "June 13, 2025");
           ("comments", PStr EmptyString);
           ("section", PStr "Section A")];
    PDict [("id", PStr "ORD-2025-003");
           ("booth_number", PStr "B-156");
           ("exhibitor_name", PStr "GreenWave Energy");
           ("item", PStr "Marketing Materials Bundle");
           ("description", PStr "Banners, brochures, business cards, and promotional items");
           ("color", PStr "Green");
           ("quantity", PInt 5);
           ("status", PStr "delivered");
           ("order_date", PStr "June 12, 2025");
           ("comments", PStr "Eco-friendly materials requested");
           ("section", PStr "Section B")];
    PDict [("id", PStr "ORD-2025-004");
           ("booth_number", PStr "C-089");
           ("exhibitor_name", PStr "SmartHealth Corp");
           ("item", PStr "Audio-Visual Equipment");
           ("description", PStr "Professional sound system, microphones, and presentation equipment");
           ("color", PStr "White");
           ("quantity", PInt 1);
           ("status", PStr "in-process");
           ("order_date", PStr "June 14, 2025");
           ("comments", PStr "Medical grade equipment required");
           ("section", PStr "Section C")]
  ].

(** ** Concrete oracles

    Used to run the application on explicit inputs. *)

(** A clock that advances by one second per reading. *)
Definition tick_clock (n : nat) : Z := Z.of_nat n * 1000000.

(** A clock that advances by three minutes per reading. *)
Definition slow_clock (n : nat) : Z := Z.of_nat n * 180000000.

(** An upstream that is down. *)
Definition dead_source (n : nat) : outcome pyval :=
  Raise (Exception_ "upstream unavailable").

(** An upstream that answers with one complete record. *)
Definition live_source (n : nat) : outcome pyval :=
  Ret (PList [PDict [("id", PStr "ORD-1");
                     ("booth_number", PStr "a-245");
                     ("exhibitor_name", PStr "Acme");
                     ("status", PStr "delivered")]]).

(** An upstream whose only record lacks every field but its id. *)
Definition ragged_source (n : nat) : outcome pyval :=
  Ret (PList [PDict [("id", PStr "ORD-1")]]).

Definition plain_isoformat (t : Z) : string := "t".

(** An upstream that answers with a number. *)
Definition number_source (n : nat) : outcome pyval := Ret (PInt 5).

(** An upstream whose second record has no status. *)
Definition mixed_source (n : nat) : outcome pyval :=
  Ret (PList [PDict [("id", PStr "ORD-1"); ("status", PStr "delivered")];
              PDict [("id", PStr "ORD-2")]]).

(** An upstream that answers well the first time and raggedly ever after. *)
Definition flaky_source (n : nat) : outcome pyval :=
  match n with
  | O => live_source n
  | S _ => ragged_source n
  end.

Section App.

(** The readings of the wall clock, the answers of the upstream client and
    the rendering of a time by [isoformat], in the order they are asked for. *)
Variable clock : nat -> Z.
Variable source : nat -> outcome pyval.
Variable isoformat : Z -> string.

Definition datetime_now : M Z :=
  fun w => (Ret (clock (now_calls w)),
            mkWorld (CACHE w) (S (now_calls w)) (fetch_calls w) (log w)).

(** [abacus_manager.get_orders_data(...)]: the credentials and identifiers
    are constants of the module and do not change between calls. *)
Definition get_orders_data : M pyval :=
  fun w => (source (fetch_calls w),
            mkWorld (CACHE w) (now_calls w) (S (fetch_calls w)) (log w)).

Definition get_from_cache (key : string) (allow_cache : bool) : M pyval :=
  if negb allow_cache then
    logger (LogCacheBypassed key) ;;;
    ret PNone
  else
    fun w =>
      match CACHE w !! key with
      | Some (data, timestamp) =>
          (now <-- datetime_now ;;
           if now - timestamp <? timedelta_seconds CACHE_DURATION then
             logger (LogUsingCached key) ;;;
             ret data
           else ret PNone) w
      | None => (Ret PNone, w)
      end.

Definition set_cache (key : string) (data : pyval) : M unit :=
  now <-- datetime_now ;;
  (fun w => (Ret tt, mkWorld (<[key := (data, now)]> (CACHE w))
                             (now_calls w) (fetch_calls w) (log w))) ;;;
  logger (LogCached key).

(** The [try] statement of [load_orders_from_abacus]; the function reaches it
    on a forced refresh and when the cache gave nothing. *)
Definition load_orders_try (force_refresh : bool) : M pyval :=
  let cache_key := "all_orders" in
  try_except
    (logger LogFetching ;;;
     orders_data <-- get_orders_data ;;
     nonempty <-- (if truthy orders_data
                   then n <-- lift (py_len orders_data) ;; ret (0 <? n)
                   else ret false) ;;
     if nonempty then
       n <-- lift (py_len orders_data) ;;
       logger (LogLoaded n) ;;;
       set_cache cache_key orders_data ;;;
       (if force_refresh then logger LogForceRefresh else ret tt) ;;;
       ret orders_data
     else raise (Exception_ "No data returned from Abacus AI"))
    (fun e =>
       logger (LogLoadError e) ;;;
       logger LogFallback ;;;
       let mock_data := get_mock_orders in
       set_cache cache_key mock_data ;;;
       ret mock_data).

Definition load_orders_from_abacus (force_refresh : bool) : M pyval :=
  let cache_key := "all_orders" in
  if negb force_refresh then
    cached_data <-- get_from_cache cache_key true ;;
    if truthy cached_data then ret cached_data else load_orders_try force_refresh
  else load_orders_try force_refresh.

(** ** Routes *)

Definition FORCE_REFRESH_PARAM : string := "force_refresh".

(** [request.args.get(FORCE_REFRESH_PARAM, 'false').lower() == 'true'], where
    [arg] is the value of the query parameter when the request carries it. *)
Definition request_force_refresh (arg : option string) : bool :=
  String.eqb (lower (match arg with Some s => s | None => "false" end)) "true".

(** [jsonify(x)] alone answers with status 200; [jsonify(x), 500] sets it.
    Every [pyval] can be serialised, so [jsonify] is total here; where the
    source would raise on a payload outside [pyval], the model has no run. *)
Record response : Type := mkResponse { body : pyval; status : Z }.

Definition jsonify (x : pyval) : response := mkResponse x 200.

Definition health_check : M response :=
  now <-- datetime_now ;;
  fun w =>
    (Ret (jsonify (PDict [("status", PStr "healthy");
                          ("timestamp", PStr (isoformat now));
                          ("abacus_ai_connected", PBool true);
                          ("cache_size", PInt (Z.of_nat (size (CACHE w))))])), w).

Definition abacus_status : M response :=
  now <-- datetime_now ;;
  ret (jsonify (PDict [("platform", PStr "Expo Convention Contractors");
                       ("status", PStr "connected");
                       ("database", PStr "Abacus AI Integration");
                       ("last_sync", PStr (isoformat now));
                       ("version", PStr "3.0.0");
                       ("cache_enabled", PBool true)])).

Definition get_all_orders (arg : option string) : M response :=
  let force_refresh := request_force_refresh arg in
  orders <-- load_orders_from_abacus force_refresh ;;
  ret (jsonify orders).

(** The body of the [try] statement of [get_orders_by_booth]. *)
Definition get_orders_by_booth_body (booth_number : string) (force_refresh : bool)
  : M response :=
  let cache_key := "booth_" ++ booth_number in
  (all_orders <-- load_orders_from_abacus force_refresh ;;
   items <-- lift (py_iter all_orders) ;;
   booth_orders <--
     lift (comprehension (field_matches "booth_number" booth_number) items) ;;
   delivered <-- lift (comprehension (status_is "delivered") booth_orders) ;;
   let delivered_count := Z.of_nat (length delivered) in
   now <-- datetime_now ;;
   let result := PDict [("booth", PStr booth_number);
                        ("orders", PList booth_orders);
                        ("total_orders", PInt (Z.of_nat (length booth_orders)));
                        ("delivered_orders", PInt delivered_count);
                        ("last_updated", PStr (isoformat now));
                        ("force_refreshed", PBool force_refresh)] in
   set_cache cache_key result ;;;
   (if force_refresh then logger (LogManualRefresh ("booth " ++ booth_number))
    else ret tt) ;;;
   ret (jsonify result)).

(** Its [except Exception as e] clause. *)
Definition get_orders_by_booth_except (booth_number : string) (e : exn) : M response :=
  logger (LogBoothError booth_number e) ;;;
  now <-- datetime_now ;;
  ret (mkResponse (PDict [("booth", PStr booth_number);
                          ("orders", PList []);
                          ("total_orders", PInt 0);
                          ("delivered_orders", PInt 0);
                          ("last_updated", PStr (isoformat now));
                          ("error", PStr (str_exn e))]) 500).

Definition get_orders_by_booth (booth_number : string) (arg : option string)
  : M response :=
  let cache_key := "booth_" ++ booth_number in
  let force_refresh := request_force_refresh arg in
  let derive : M response :=
    try_except (get_orders_by_booth_body booth_number force_refresh)
               (get_orders_by_booth_except booth_number) in
  if negb force_refresh then
    cached_data <-- get_from_cache cache_key true ;;
    if truthy cached_data then ret (jsonify cached_data) else derive
  else derive.

(** The body of the [try] statement of [get_orders_by_exhibitor]. *)
Definition get_orders_by_exhibitor_body (exhibitor_name : string) (force_refresh : bool)
  : M response :=
  let cache_key := "exhibitor_" ++ exhibitor_name in
  (all_orders <-- load_orders_from_abacus force_refresh ;;
   items <-- lift (py_iter all_orders) ;;
   exhibitor_orders <--
     lift (comprehension (field_matches "exhibitor_name" exhibitor_name) items) ;;
   delivered <-- lift (comprehension (status_is "delivered") exhibitor_orders) ;;
   let delivered_count := Z.of_nat (length delivered) in
   now <-- datetime_now ;;
   let result := PDict [("exhibitor", PStr exhibitor_name);
                        ("orders", PList exhibitor_orders);
                        ("total_orders", PInt (Z.of_nat (length exhibitor_orders)));
                        ("delivered_orders", PInt delivered_count);
                        ("last_updated", PStr (isoformat now));
                        ("force_refreshed", PBool force_refresh)] in
   set_cache cache_key result ;;;
   (if force_refresh then logger (LogManualRefresh exhibitor_name) else ret tt) ;;;
   ret (jsonify result)).

(** Its [except Exception as e] clause. *)
Definition get_orders_by_exhibitor_except (exhibitor_name : string) (e : exn) : M response :=
  logger (LogExhibitorError exhibitor_name e) ;;;
  now <-- datetime_now ;;
  ret (mkResponse (PDict [("exhibitor", PStr exhibitor_name);
                          ("orders", PList []);
                          ("total_orders", PInt 0);
                          ("delivered_orders", PInt 0);
                          ("last_updated", PStr (isoformat now));
                          ("error", PStr (str_exn e))]) 500).

Definition get_orders_by_exhibitor (exhibitor_name : string) (arg : option string)
  : M response :=
  let cache_key := "exhibitor_" ++ exhibitor_name in
  let force_refresh := request_force_refresh arg in
  let derive : M response :=
    try_except (get_orders_by_exhibitor_body exhibitor_name force_refresh)
               (get_orders_by_exhibitor_except exhibitor_name) in
  if negb force_refresh then
    cached_data <-- get_from_cache cache_key true ;;
    if truthy cached_data then ret (jsonify cached_data) else derive
  else derive.

(** The body of the [try] statement of [get_exhibitors]. *)
Definition get_exhibitors_body (force_refresh : bool) : M response :=
  let cache_key := "exhibitors" in
  (orders <-- load_orders_from_abacus force_refresh ;;
   items <-- lift (py_iter orders) ;;
   exhibitors_dict <-- lift (roster_loop items []) ;;
   let exhibitors := PList (map (fun kv => entry_to_dict (snd kv)) exhibitors_dict) in
   set_cache cache_key exhibitors ;;;
   ret (jsonify exhibitors)).

(** Its [except Exception as e] clause. *)
Definition get_exhibitors_except (e : exn) : M response :=
  logger (LogExhibitorsError e) ;;;
  ret (mkResponse (PList []) 500).

Definition get_exhibitors (arg : option string) : M response :=
  let cache_key := "exhibitors" in
  let force_refresh := request_force_refresh arg in
  let derive : M response :=
    try_except (get_exhibitors_body force_refresh) get_exhibitors_except in
  if negb force_refresh then
    cached_data <-- get_from_cache cache_key true ;;
    if truthy cached_data then ret (jsonify cached_data) else derive
  else derive.

(** [len([o for o in orders if o['status'] == status])] *)
Definition count_status (status : string) (orders : pyval) : outcome Z :=
  items <~ py_iter orders ;;
  hits <~ comprehension (status_is status) items ;;
  Ret (Z.of_nat (length hits)).

Definition get_stats (arg : option string) : M response :=
  let force_refresh := request_force_refresh arg in
  orders <-- load_orders_from_abacus force_refresh ;;
  total <-- lift (py_len orders) ;;
  delivered <-- lift (count_status "delivered" orders) ;;
  in_process <-- lift (count_status "in-process" orders) ;;
  in_route <-- lift (count_status "in-route" orders) ;;
  out_for_delivery <-- lift (count_status "out-for-delivery" orders) ;;
  cancelled <-- lift (count_status "cancelled" orders) ;;
  now <-- datetime_now ;;
  let stats := PDict [("total_orders", PInt total);
                      ("delivered", PInt delivered);
                      ("in_process", PInt in_process);
                      ("in_route", PInt in_route);
                      ("out_for_delivery", PInt out_for_delivery);
                      ("cancelled", PInt cancelled);
                      ("last_updated", PStr (isoformat now))] in
  ret (jsonify stats).

Definition clear_cache : M response :=
  (fun w => (Ret tt, mkWorld ∅ (now_calls w) (fetch_calls w) (log w))) ;;;
  logger LogCacheCleared ;;;
  ret (jsonify (PDict [("message", PStr "Cache cleared successfully")])).

(** The requests the application answers. *)
Inductive request : Type :=
| GetHealth
| GetAbacusStatus
| GetOrders (arg : option string)
| GetOrdersByBooth (booth_number : string) (arg : option string)
| GetOrdersByExhibitor (exhibitor_name : string) (arg : option string)
| GetExhibitors (arg : option string)
| GetStats (arg : option string)
| PostClearCache.

Definition handle (r : request) : M response :=
  match r with
  | GetHealth => health_check
  | GetAbacusStatus => abacus_status
  | GetOrders arg => get_all_orders arg
  | GetOrdersByBooth b arg => get_orders_by_booth b arg
  | GetOrdersByExhibitor n arg => get_orders_by_exhibitor n arg
  | GetExhibitors arg => get_exhibitors arg
  | GetStats arg => get_stats arg
  | PostClearCache => clear_cache
  end.

(** The process starts with an empty cache. *)
Definition initial_world : world := mkWorld ∅ 0 0 [].

(** The worlds the process can be in: the initial one, and the one left
    behind by any request, whether it was answered or ended in an exception
    (the framework turns that into a response; the cache keeps its writes). *)
Inductive reachable : world -> Prop :=
| reachable_init : reachable initial_world
| reachable_step w r : reachable w -> reachable (snd (handle r w)).

(** ** Vocabulary of the statements *)

(** An entry stored at [fetched_at] is fresh at [now]. *)
Definition fresh (now fetched_at : Z) : Prop :=
  now - fetched_at < timedelta_seconds CACHE_DURATION.

(** The upstream call raised, or answered with no record at all. *)
Definition fetch_failed (r : outcome pyval) : Prop :=
  match r with
  | Raise _ => True
  | Ret v => v = PList []
  end.

(** What an upstream answer must look like to be stored as it is: true, and
    with a positive length. *)
Definition usable (v : pyval) : bool :=
  truthy v && match py_len v with Ret n => 0 <? n | Raise _ => false end.

(** The value a run of the [try] statement stores and returns, as a function
    of the upstream answer. *)
Definition stored_orders (r : outcome pyval) : pyval :=
  match r with
  | Ret v => if usable v then v else get_mock_orders
  | Raise _ => get_mock_orders
  end.

(** The body of a failure answer of the per-booth ([label] is ["booth"]) and
    per-exhibitor ([label] is ["exhibitor"]) routes. *)
Definition failure_bundle (label ident : string) (now : Z) (e : exn) : pyval :=
  PDict [(label, PStr ident);
         ("orders", PList []);
         ("total_orders", PInt 0);
         ("delivered_orders", PInt 0);
         ("last_updated", PStr (isoformat now));
         ("error", PStr (str_exn e))].

(** Whatever sits under ["all_orders"] was put there by a run of the [try]
    statement of [load_orders_from_abacus]. *)
Definition all_orders_inv (w : world) : Prop :=
  forall v t, CACHE w !! "all_orders" = Some (v, t) ->
              exists n, v = stored_orders (source n).

(** The contract of the upstream client: an answer is a sequence of records. *)
Definition returns_sequences : Prop :=
  forall n v, source n = Ret v -> exists l, v = PList l.

(** The upstream never delivers. *)
Definition always_fails : Prop := forall n, fetch_failed (source n).

(** The answer a route gave, when it gave one. *)
Definition answer_of (o : outcome response) : response :=
  match o with
  | Ret r => r
  | Raise _ => mkResponse PNone 0
  end.

(** *** Equality of texts up to case, said without lower-casing

    Two characters are the same letter when they are the same letter of the
    alphabet in either case, or the same character when neither is a letter;
    two texts are the same up to case when they have the same length and the
    same letter at every place. *)








(** The order has the status. *)
Definition has_status (status : string) (o : pyval) : bool :=
  match py_getitem o "status" with
  | Ret v => py_eq_str v status
  | Raise _ => false
  end.

Definition count_with_status (status : string) (orders : list pyval) : Z :=
  Z.of_nat (length (List.filter (has_status status) orders)).

(** *** The roster, in the words of its description

    Group the orders by [exhibitor_name]; a group is named by its key as the
    first order of the group spells it, takes the booth of that first order,
    and counts its orders and its delivered orders; the groups come in the
    order in which their keys are first seen. *)

Definition exhibitor_of (o : pyval) : pyval :=
  match py_getitem o "exhibitor_name" with Ret n => n | Raise _ => PNone end.

Definition booth_of (o : pyval) : pyval :=
  match py_getitem o "booth_number" with Ret b => b | Raise _ => PNone end.

(** The three fields the loop reads are there, and the name can be a key. *)
Definition well_formed_order (o : pyval) : Prop :=
  (exists n, py_getitem o "exhibitor_name" = Ret n /\ hashable n = true)
  /\ (exists b, py_getitem o "booth_number" = Ret b)
  /\ (exists s, py_getitem o "status" = Ret s).

(** The keys in the order of their first occurrence. *)
Fixpoint first_seen (names : list pyval) : list pyval :=
  match names with
  | [] => []
  | n :: rest => n :: List.filter (fun m => negb (key_eqb n m)) (first_seen rest)
  end.

Definition group_of (n : pyval) (orders : list pyval) : list pyval :=
  List.filter (fun o => key_eqb n (exhibitor_of o)) orders.

Definition summary_of (n : pyval) (orders : list pyval) : exhibitor_entry :=
  let group := group_of n orders in
  mkEntry n (booth_of (hd PNone group))
          (Z.of_nat (length group)) (count_with_status "delivered" group).

Definition roster_spec (orders : list pyval) : list pyval :=
  map (fun n => entry_to_dict (summary_of n orders))
      (first_seen (map exhibitor_of orders)).

(** *** The state of the roster loop *)

(** The entry [e] after the orders of [group] have been counted into it. *)
Definition bump (e : exhibitor_entry) (group : list pyval) : exhibitor_entry :=
  mkEntry (name e) (booth e)
          (total_orders e + Z.of_nat (length group))
          (delivered_orders e + count_with_status "delivered" group).

(** One turn of the loop on a well-formed order. *)
Definition roster_step (d : list (pyval * exhibitor_entry)) (o : pyval)
  : list (pyval * exhibitor_entry) :=
  let n := exhibitor_of o in
  let d1 := if key_in n d then d else (d ++ [(n, mkEntry n (booth_of o) 0 0)])%list in
  let d2 := dict_update incr_total n d1 in
  if has_status "delivered" o then dict_update incr_delivered n d2 else d2.

(** The dictionary [d] after the loop has run over [orders]. *)
Definition merge (d : list (pyval * exhibitor_entry)) (orders : list pyval)
  : list (pyval * exhibitor_entry) :=
  (map (fun kv => (fst kv, bump (snd kv) (group_of (fst kv) orders))) d
   ++ map (fun n => (n, summary_of n orders))
        (List.filter (fun n => negb (key_in n d))
                     (first_seen (map exhibitor_of orders))))%list.

(** No two keys of the dictionary are equal, and each can be hashed. *)
Fixpoint distinct_keys (d : list (pyval * exhibitor_entry)) : Prop :=
  match d with
  | [] => True
  | (k, _) :: d' => hashable k = true /\ key_in k d' = false /\ distinct_keys d'
  end.

(** *** Further vocabulary *)

(** A non-empty list, dictionary or string: the only values that are true
    and have a positive length. *)
Definition nonempty_container (v : pyval) : bool :=
  match v with
  | PList (_ :: _) => true
  | PDict (_ :: _) => true
  | PStr (String _ _) => true
  | _ => false
  end.

(** The order matches [needle] on [field], every step of the test having gone
    through. *)
Definition matches_field (field needle : string) (order : pyval) : bool :=
  match field_matches field needle order with
  | Ret c => c
  | Raise _ => false
  end.

(** The keys a request may write, and the keys only. *)
Definition keys_of (r : request) : list string :=
  match r with
  | GetHealth | GetAbacusStatus | PostClearCache => []
  | GetOrders _ | GetStats _ => ["all_orders"]
  | GetOrdersByBooth booth_number _ => ["all_orders"; "booth_" ++ booth_number]
  | GetOrdersByExhibitor exhibitor_name _ => ["all_orders"; "exhibitor_" ++ exhibitor_name]
  | GetExhibitors _ => ["all_orders"; "exhibitors"]
  end.

(** From [w] to [w'] the upstream was called once at most, and no entry
    outside [keys] was touched. *)
Definition step_ok (keys : list string) (w w' : world) : Prop :=
  (fetch_calls w' = fetch_calls w \/ fetch_calls w' = S (fetch_calls w))
  /\ forall k, ~ In k keys -> CACHE w' !! k = CACHE w !! k.

(** The orders counted by the summaries of a roster dictionary. *)
Definition sum_totals (d : list (pyval * exhibitor_entry)) : Z :=
  fold_right (fun kv acc => total_orders (snd kv) + acc) 0 d.

(** A summary counts at least one order, and no more delivered orders than
    orders. *)
Definition entry_ok (kv : pyval * exhibitor_entry) : Prop :=
  1 <= total_orders (snd kv)
  /\ 0 <= delivered_orders (snd kv) <= total_orders (snd kv).

(** ** Running the monad *)

Ltac unfold_monad :=
  unfold set_cache, get_from_cache, get_orders_data, datetime_now, logger,
    try_except, bind, ret, raise, lift in *.

Ltac run := unfold_monad; cbn [fst snd CACHE now_calls fetch_calls log negb] in *.

(** The lines a computation added in front of [log w]. *)
Ltac log_prefix l :=
  lazymatch l with
  | log _ => constr:(@nil log_record)
  | (?p ++ log _)%list => constr:(p)
  | ?r :: ?rest => let p := log_prefix rest in constr:(r :: p)
  end.

(** Case analysis on every pure step of a body that may raise. *)
Ltac step_pure :=
  repeat match goal with
         | |- context [match ?o with Ret _ => _ | Raise _ => _ end] =>
             lazymatch o with
             | context [match _ with _ => _ end] => fail
             | _ => destruct o eqn:?; cbn [fst snd CACHE now_calls fetch_calls log]
             end
         end.

(** Names the outcome of the call to [load_orders_from_abacus] a body starts
    with, keeping what [Hload] says about the world it leaves behind. *)
Ltac after_load Hload fr w :=
  let Hl := fresh "Hl" in
  let H1 := fresh "Hinv1" in
  pose proof (Hload fr w) as H1;
  destruct (load_orders_from_abacus fr w) as [[?v|?e] ?w1] eqn:Hl;
  cbn [fst snd] in H1.

(** ** Fetch orchestration *)

Lemma truthy_mock : truthy get_mock_orders = true.
Proof. reflexivity. Qed.

Lemma stored_orders_truthy (r : outcome pyval) : truthy (stored_orders r) = true.
Proof.
  destruct r as [v|e]; cbn; [| reflexivity].
  destruct (usable v) eqn:Hu; [| reflexivity].
  unfold usable in Hu. apply andb_true_iff in Hu. tauto.
Qed.

Lemma stored_orders_failed (r : outcome pyval) :
  fetch_failed r -> stored_orders r = get_mock_orders.
Proof. destruct r as [v|e]; cbn; [intros -> |]; reflexivity. Qed.

(** The [try] statement calls the upstream once and always ends by storing
    what it returns: the upstream answer when that is usable, the mock orders
    otherwise. *)
Lemma load_orders_try_spec (force_refresh : bool) (w : world) :
  exists lg,
    load_orders_try force_refresh w
    = (Ret (stored_orders (source (fetch_calls w))),
       mkWorld (<["all_orders" := (stored_orders (source (fetch_calls w)),
                                   clock (now_calls w))]> (CACHE w))
               (S (now_calls w)) (S (fetch_calls w)) (lg ++ log w)%list)
    /\ In LogFetching lg
    /\ (forall k, ~ In (LogUsingCached k) lg).
Proof using clock source.
  clear isoformat. unfold load_orders_try, stored_orders, usable. run.
  destruct (source (fetch_calls w)) as [v|e] eqn:Hs; cbn;
    [ destruct (truthy v) eqn:Ht; cbn;
      [ destruct (py_len v) as [n|e] eqn:Hl; cbn;
        [ destruct (0 <? n) eqn:Hn; cbn; rewrite ?Hl; cbn | ] | ] | ];
    try destruct force_refresh; cbn;
    match goal with
    | |- exists _, (_, mkWorld _ _ _ ?l) = _ /\ _ =>
        let p := log_prefix l in exists p
    end;
    (split; [reflexivity |]);
    (split; [cbn; tauto |]);
    cbn; intros k Hk; intuition discriminate.
Qed.

(** The shape shared by every cached entry point: unless the refresh is
    forced, look the key up and answer with a true cached value; otherwise
    derive.  Either the cache answers, or the derivation runs in the world
    the lookup left behind. *)
Lemma cached_or_derive {A : Type} (key : string) (force_refresh : bool)
    (answer : pyval -> A) (derive : M A) (w : world) :
  let m := if negb force_refresh then
             cached_data <-- get_from_cache key true ;;
             if truthy cached_data then ret (answer cached_data) else derive
           else derive in
  (force_refresh = false
   /\ exists data t,
       CACHE w !! key = Some (data, t)
       /\ fresh (clock (now_calls w)) t /\ truthy data = true
       /\ m w = (Ret (answer data),
                 mkWorld (CACHE w) (S (now_calls w)) (fetch_calls w)
                         (LogUsingCached key :: log w)))
  \/ (exists w0,
       m w = derive w0
       /\ CACHE w0 = CACHE w /\ fetch_calls w0 = fetch_calls w
       /\ (force_refresh = true -> w0 = w)).
Proof.
  unfold fresh. destruct force_refresh; cbn [negb].
  - right. exists w. auto.
  - run. destruct (CACHE w !! key) as [[data t]|] eqn:Hc; cbn.
    + destruct (clock (now_calls w) - t <? timedelta_seconds CACHE_DURATION) eqn:Hf; cbn.
      * destruct (truthy data) eqn:Ht.
        -- left. split; [reflexivity |]. exists data, t. repeat split; auto. lia.
        -- right. eexists. split; [reflexivity |]. cbn. repeat split; discriminate.
      * right. eexists. split; [reflexivity |]. cbn. repeat split; discriminate.
    + right. exists w. repeat split; discriminate.
Qed.

Lemma load_orders_cases (force_refresh : bool) (w : world) :
  (force_refresh = false
   /\ exists data t,
       CACHE w !! "all_orders" = Some (data, t)
       /\ fresh (clock (now_calls w)) t /\ truthy data = true
       /\ load_orders_from_abacus force_refresh w
          = (Ret data, mkWorld (CACHE w) (S (now_calls w)) (fetch_calls w)
                               (LogUsingCached "all_orders" :: log w)))
  \/ (exists w0,
       load_orders_from_abacus force_refresh w = load_orders_try force_refresh w0
       /\ CACHE w0 = CACHE w /\ fetch_calls w0 = fetch_calls w
       /\ (force_refresh = true -> w0 = w)).
Proof.
  exact (cached_or_derive "all_orders" force_refresh (fun x => x)
           (load_orders_try force_refresh) w).
Qed.

(** C1. [load_orders_from_abacus] returns for every flag and every world, and
    what it returns is never an empty or otherwise false value; whenever the
    call reached the upstream and the upstream raised or answered with no
    record, the mock orders are returned and stored under ["all_orders"]. *)
Theorem load_orders_never_propagates (force_refresh : bool) (w : world) :
  (exists orders, fst (load_orders_from_abacus force_refresh w) = Ret orders
                  /\ truthy orders = true)
  /\ (fetch_calls (snd (load_orders_from_abacus force_refresh w)) = S (fetch_calls w) ->
      fetch_failed (source (fetch_calls w)) ->
      fst (load_orders_from_abacus force_refresh w) = Ret get_mock_orders
      /\ exists t, CACHE (snd (load_orders_from_abacus force_refresh w)) !! "all_orders"
                   = Some (get_mock_orders, t)).
Proof.
  destruct (load_orders_cases force_refresh w)
    as [(_ & data & t & Hc & Hf & Ht & ->) | (w0 & -> & Hc0 & Hf0 & _)]; cbn.
  - split; [eauto |]. intros; lia.
  - destruct (load_orders_try_spec force_refresh w0) as (lg & -> & _ & _); cbn.
    split.
    + eexists. split; [reflexivity | apply stored_orders_truthy].
    + intros _ Hfail. rewrite Hf0, (stored_orders_failed _ Hfail).
      split; [reflexivity |]. eexists. apply lookup_insert_eq.
Qed.

(** ** The cache *)

(** C2. [get_from_cache]: with the cache bypassed the answer is [None]
    whatever is stored; a value just stored is read back as long as the clock
    has advanced by less than 120 seconds, and is gone once it has advanced by
    120 seconds or more; in general the stored value is returned exactly when
    an entry exists for the key and is fresh, and [None] otherwise. *)
Theorem get_from_cache_contract (key : string) (v : pyval) (w : world) :
  fst (get_from_cache key false w) = Ret PNone
  /\ (fresh (clock (S (now_calls w))) (clock (now_calls w)) ->
      fst (get_from_cache key true (snd (set_cache key v w))) = Ret v)
  /\ (timedelta_seconds 120 <= clock (S (now_calls w)) - clock (now_calls w) ->
      fst (get_from_cache key true (snd (set_cache key v w))) = Ret PNone)
  /\ (forall data t, CACHE w !! key = Some (data, t) ->
      fresh (clock (now_calls w)) t ->
      fst (get_from_cache key true w) = Ret data)
  /\ (forall data t, CACHE w !! key = Some (data, t) ->
      timedelta_seconds 120 <= clock (now_calls w) - t ->
      fst (get_from_cache key true w) = Ret PNone)
  /\ (CACHE w !! key = None -> fst (get_from_cache key true w) = Ret PNone)
  /\ (forall data, data <> PNone ->
      fst (get_from_cache key true w) = Ret data <->
      exists t, CACHE w !! key = Some (data, t) /\ fresh (clock (now_calls w)) t).
Proof.
  run. unfold fresh, CACHE_DURATION. rewrite lookup_insert_eq. cbn.
  repeat split.
  - intros H. apply Z.ltb_lt in H. rewrite H. reflexivity.
  - intros H. apply Z.ltb_ge in H. rewrite H. reflexivity.
  - intros data t -> H. apply Z.ltb_lt in H. cbn. rewrite H. reflexivity.
  - intros data t -> H. apply Z.ltb_ge in H. cbn. rewrite H. reflexivity.
  - intros ->. reflexivity.
  - destruct (CACHE w !! key) as [[d t]|]; cbn; [| congruence].
    destruct (Z.ltb_spec (clock (now_calls w) - t) (timedelta_seconds 120)); cbn;
      intros; simplify_eq; eauto.
  - intros (t' & -> & H'). apply Z.ltb_lt in H'. cbn. rewrite H'. reflexivity.
Qed.

(** ** The per-booth route *)

Lemma booth_key_ne (booth_number : string) : "booth_" ++ booth_number <> "all_orders".
Proof. discriminate. Qed.

Lemma exhibitor_key_ne (exhibitor_name : string) :
  "exhibitor_" ++ exhibitor_name <> "all_orders".
Proof. discriminate. Qed.

(** A per-booth derivation that ends normally answers 200 with a bundle
    whose flag is the flag of this very call, and has just stored it. *)
Lemma booth_body_ret (booth_number : string) (force_refresh : bool) (w w' : world)
    (resp : response) :
  get_orders_by_booth_body booth_number force_refresh w = (Ret resp, w') ->
  status resp = 200
  /\ py_getitem (body resp) "force_refreshed" = Ret (PBool force_refresh)
  /\ exists t, CACHE w' !! ("booth_" ++ booth_number) = Some (body resp, t).
Proof.
  unfold get_orders_by_booth_body. run.
  destruct (load_orders_from_abacus force_refresh w) as [[v|e] w1]; [| discriminate].
  step_pure; try discriminate.
  destruct force_refresh; cbn; intros [= <- <-]; cbn;
    (split; [reflexivity |]); (split; [reflexivity |]);
    eexists; apply lookup_insert_eq.
Qed.

Lemma exhibitor_body_ret (exhibitor_name : string) (force_refresh : bool) (w w' : world)
    (resp : response) :
  get_orders_by_exhibitor_body exhibitor_name force_refresh w = (Ret resp, w') ->
  status resp = 200.
Proof.
  unfold get_orders_by_exhibitor_body. run.
  destruct (load_orders_from_abacus force_refresh w) as [[v|e] w1]; [| discriminate].
  step_pure; try discriminate.
  destruct force_refresh; cbn; intros [= <- <-]; reflexivity.
Qed.

Lemma exhibitors_body_ret (force_refresh : bool) (w w' : world) (resp : response) :
  get_exhibitors_body force_refresh w = (Ret resp, w') ->
  status resp = 200.
Proof.
  unfold get_exhibitors_body. run.
  destruct (load_orders_from_abacus force_refresh w) as [[v|e] w1]; [| discriminate].
  step_pure; try discriminate.
  cbn; intros [= <- <-]; reflexivity.
Qed.

(** C5. A per-booth request with the refresh forced looks up neither its own
    key nor ["all_orders"]: it calls the upstream exactly once, stores what
    that call gives under ["all_orders"], logs the fetch and no cache hit, and
    answers the same whatever the cache held before. *)
Theorem force_refresh_reaches_upstream (booth_number : string) (arg : option string)
    (w : world) :
  request_force_refresh arg = true ->
  fetch_calls (snd (get_orders_by_booth booth_number arg w)) = S (fetch_calls w)
  /\ CACHE (snd (get_orders_by_booth booth_number arg w)) !! "all_orders"
     = Some (stored_orders (source (fetch_calls w)), clock (now_calls w))
  /\ (exists lg, log (snd (get_orders_by_booth booth_number arg w)) = (lg ++ log w)%list
                 /\ In LogFetching lg /\ forall k, ~ In (LogUsingCached k) lg)
  /\ (forall c, fst (get_orders_by_booth booth_number arg
                       (mkWorld c (now_calls w) (fetch_calls w) (log w)))
                = fst (get_orders_by_booth booth_number arg w)).
Proof.
  intros Hfr. unfold get_orders_by_booth. rewrite Hfr. cbn [negb].
  unfold get_orders_by_booth_body, get_orders_by_booth_except, load_orders_from_abacus.
  cbn [negb]. run.
  destruct (load_orders_try_spec true w) as (lg & -> & Hin & Hno).
  cbn [fst snd CACHE now_calls fetch_calls log].
  assert (Hc : forall c, exists lg',
     load_orders_try true (mkWorld c (now_calls w) (fetch_calls w) (log w))
     = (Ret (stored_orders (source (fetch_calls w))),
        mkWorld (<["all_orders" := (stored_orders (source (fetch_calls w)),
                                    clock (now_calls w))]> c)
                (S (now_calls w)) (S (fetch_calls w)) (lg' ++ log w)%list)).
  { intros c. destruct (load_orders_try_spec true (mkWorld c (now_calls w) (fetch_calls w) (log w)))
      as (lg' & Hl & _). exists lg'. exact Hl. }
  step_pure; (split; [reflexivity |]); (split; [| split]).
  all: try (rewrite ?lookup_insert_ne by apply booth_key_ne; apply lookup_insert_eq).
  all: try (intros c; destruct (Hc c) as (lg' & ->);
            cbn [fst snd CACHE now_calls fetch_calls log];
            rewrite ?Heqo, ?Heqo0, ?Heqo1; reflexivity).
  all: match goal with
       | |- exists _, ?l = _ /\ _ => let p := log_prefix l in exists p
       end; (split; [reflexivity |]); split;
         [ cbn; tauto | cbn; intros k Hk; specialize (Hno k); intuition discriminate ].
Qed.

(** C3, as the code has it.  A per-booth answer with status 200 is either
    the bundle found under the booth key, returned as it was stored (flag
    included), by a call that did not force the refresh; or a bundle derived
    by this call, whose flag is the flag of this call and which is now the one
    stored under the booth key. *)
Theorem booth_bundle_flag (booth_number : string) (arg : option string) (w : world)
    (resp : response) :
  fst (get_orders_by_booth booth_number arg w) = Ret resp ->
  status resp = 200 ->
  (request_force_refresh arg = false
   /\ exists t, CACHE w !! ("booth_" ++ booth_number) = Some (body resp, t)
                /\ fresh (clock (now_calls w)) t
                /\ CACHE (snd (get_orders_by_booth booth_number arg w)) = CACHE w)
  \/ (py_getitem (body resp) "force_refreshed" = Ret (PBool (request_force_refresh arg))
      /\ exists t, CACHE (snd (get_orders_by_booth booth_number arg w))
                   !! ("booth_" ++ booth_number) = Some (body resp, t)).
Proof.
  unfold get_orders_by_booth. cbv zeta.
  pose proof (cached_or_derive ("booth_" ++ booth_number) (request_force_refresh arg)
                jsonify
                (try_except (get_orders_by_booth_body booth_number (request_force_refresh arg))
                            (get_orders_by_booth_except booth_number)) w) as H.
  cbv zeta in H.
  destruct H as [(Hfr & data & t & Hc & Hf & Ht & ->) | (w0 & -> & _)]; cbn.
  - intros [= <-] _. left. split; [assumption |]. exists t. auto.
  - unfold try_except.
    destruct (get_orders_by_booth_body booth_number (request_force_refresh arg) w0)
      as [[r|e] w1] eqn:Hb; cbn.
    + intros [= ->] _. right. apply booth_body_ret in Hb. tauto.
    + unfold get_orders_by_booth_except. run. intros [= <-]. discriminate.
Qed.

(** ** Failures of a derivation *)

(** A cached entry point whose derivation is a [try] statement never raises:
    its answer comes from the cache, from the body, or from the [except]
    clause applied to what the body raised. *)
Lemma cached_try_answers (key : string) (force_refresh : bool)
    (body_ : M response) (except_ : exn -> M response) (w : world) :
  (forall e w1, exists resp w2, except_ e w1 = (Ret resp, w2)) ->
  let m := if negb force_refresh then
             cached_data <-- get_from_cache key true ;;
             if truthy cached_data then ret (jsonify cached_data)
             else try_except body_ except_
           else try_except body_ except_ in
  exists resp, fst (m w) = Ret resp
    /\ (status resp = 200
        \/ (exists w0, fst (body_ w0) = Ret resp)
        \/ (exists e w0 w1, body_ w0 = (Raise e, w1) /\ fst (except_ e w1) = Ret resp)).
Proof.
  intros Hex m.
  destruct (cached_or_derive key force_refresh jsonify (try_except body_ except_) w)
    as [(_ & data & t & _ & _ & _ & Hm) | (w0 & Hm & _)];
    fold m in Hm; rewrite Hm; cbn.
  - eexists. split; [reflexivity |]. left. reflexivity.
  - unfold try_except. destruct (body_ w0) as [[r|e] w1] eqn:Hb; cbn.
    + exists r. split; [reflexivity |]. right. left. exists w0. rewrite Hb. reflexivity.
    + destruct (Hex e w1) as (resp & w2 & He). exists resp. rewrite He.
      split; [reflexivity |]. right. right. exists e, w0, w1. rewrite He. auto.
Qed.

(** C4, as the code has it.  The per-booth and per-exhibitor routes never
    raise: they answer 200, or 500 with the zero-valued bundle whose [error]
    is the text of the exception their derivation raised.  The roster route
    never raises either, but its failure answer is the empty list with status
    500 and carries no error text.  Conversely an exception raised by the body
    of any of the three [try] statements is turned into that answer. *)
Theorem derivation_errors_caught (ident : string) (arg : option string) (w : world) :
  let fr := request_force_refresh arg in
  (exists resp, fst (get_orders_by_booth ident arg w) = Ret resp
     /\ (status resp = 200
         \/ exists e w0 now, fst (get_orders_by_booth_body ident fr w0) = Raise e
              /\ resp = mkResponse (failure_bundle "booth" ident now e) 500))
  /\ (exists resp, fst (get_orders_by_exhibitor ident arg w) = Ret resp
     /\ (status resp = 200
         \/ exists e w0 now, fst (get_orders_by_exhibitor_body ident fr w0) = Raise e
              /\ resp = mkResponse (failure_bundle "exhibitor" ident now e) 500))
  /\ (exists resp, fst (get_exhibitors arg w) = Ret resp
     /\ (status resp = 200
         \/ exists e w0, fst (get_exhibitors_body fr w0) = Raise e
              /\ resp = mkResponse (PList []) 500))
  /\ (forall e, fst (get_orders_by_booth_body ident fr w) = Raise e ->
      exists now, fst (try_except (get_orders_by_booth_body ident fr)
                                  (get_orders_by_booth_except ident) w)
                  = Ret (mkResponse (failure_bundle "booth" ident now e) 500))
  /\ (forall e, fst (get_orders_by_exhibitor_body ident fr w) = Raise e ->
      exists now, fst (try_except (get_orders_by_exhibitor_body ident fr)
                                  (get_orders_by_exhibitor_except ident) w)
                  = Ret (mkResponse (failure_bundle "exhibitor" ident now e) 500))
  /\ (forall e, fst (get_exhibitors_body fr w) = Raise e ->
      fst (try_except (get_exhibitors_body fr) get_exhibitors_except w)
      = Ret (mkResponse (PList []) 500)).
Proof.
  intros fr. repeat split.
  - unfold get_orders_by_booth. cbv zeta. fold fr.
    destruct (cached_try_answers ("booth_" ++ ident) fr
                (get_orders_by_booth_body ident fr) (get_orders_by_booth_except ident) w)
      as (resp & Hr & Hcases).
    { intros e w1. unfold get_orders_by_booth_except. run. eauto. }
    exists resp. split; [exact Hr |].
    destruct Hcases as [H200 | [(w0 & Hb) | (e & w0 & w1 & Hb & He)]].
    + auto.
    + left. destruct (get_orders_by_booth_body ident fr w0) as [o w2] eqn:Hb'.
      cbn in Hb. subst o. apply booth_body_ret in Hb'. tauto.
    + right. exists e, w0. unfold get_orders_by_booth_except in He. run.
      injection He as <-. eexists. rewrite Hb. split; reflexivity.
  - unfold get_orders_by_exhibitor. cbv zeta. fold fr.
    destruct (cached_try_answers ("exhibitor_" ++ ident) fr
                (get_orders_by_exhibitor_body ident fr)
                (get_orders_by_exhibitor_except ident) w)
      as (resp & Hr & Hcases).
    { intros e w1. unfold get_orders_by_exhibitor_except. run. eauto. }
    exists resp. split; [exact Hr |].
    destruct Hcases as [H200 | [(w0 & Hb) | (e & w0 & w1 & Hb & He)]].
    + auto.
    + left. destruct (get_orders_by_exhibitor_body ident fr w0) as [o w2] eqn:Hb'.
      cbn in Hb. subst o. apply exhibitor_body_ret in Hb'. tauto.
    + right. exists e, w0. unfold get_orders_by_exhibitor_except in He. run.
      injection He as <-. eexists. rewrite Hb. split; reflexivity.
  - unfold get_exhibitors. cbv zeta. fold fr.
    destruct (cached_try_answers "exhibitors" fr
                (get_exhibitors_body fr) get_exhibitors_except w)
      as (resp & Hr & Hcases).
    { intros e w1. unfold get_exhibitors_except. run. eauto. }
    exists resp. split; [exact Hr |].
    destruct Hcases as [H200 | [(w0 & Hb) | (e & w0 & w1 & Hb & He)]].
    + auto.
    + left. destruct (get_exhibitors_body fr w0) as [o w2] eqn:Hb'.
      cbn in Hb. subst o. apply exhibitors_body_ret in Hb'. tauto.
    + right. exists e, w0. unfold get_exhibitors_except in He. run.
      injection He as <-. rewrite Hb. split; reflexivity.
  - intros e He. unfold try_except, get_orders_by_booth_except.
    destruct (get_orders_by_booth_body ident fr w) as [o w1]. cbn in He. subst o.
    run. eexists. reflexivity.
  - intros e He. unfold try_except, get_orders_by_exhibitor_except.
    destruct (get_orders_by_exhibitor_body ident fr w) as [o w1]. cbn in He. subst o.
    run. eexists. reflexivity.
  - intros e He. unfold try_except, get_exhibitors_except.
    destruct (get_exhibitors_body fr w) as [o w1]. cbn in He. subst o.
    run. reflexivity.
Qed.

(** ** What the cache holds under ["all_orders"] *)

Lemma all_orders_inv_cache (w w' : world) :
  CACHE w' = CACHE w -> all_orders_inv w -> all_orders_inv w'.
Proof. unfold all_orders_inv. intros ->. auto. Qed.

Lemma all_orders_inv_other (key : string) (x : pyval * Z) (w w' : world) :
  key <> "all_orders" ->
  CACHE w' = <[key := x]> (CACHE w) -> all_orders_inv w -> all_orders_inv w'.
Proof.
  unfold all_orders_inv. intros Hne -> Hinv v t. rewrite lookup_insert_ne by exact Hne.
  apply Hinv.
Qed.

Lemma load_orders_try_inv (force_refresh : bool) (w : world) :
  all_orders_inv (snd (load_orders_try force_refresh w)).
Proof.
  destruct (load_orders_try_spec force_refresh w) as (lg & -> & _).
  intros v t. cbn. rewrite lookup_insert_eq. intros [= <- <-]. eauto.
Qed.

Lemma load_orders_inv (force_refresh : bool) (w : world) :
  all_orders_inv w -> all_orders_inv (snd (load_orders_from_abacus force_refresh w)).
Proof.
  intros Hinv.
  destruct (load_orders_cases force_refresh w)
    as [(_ & data & t & _ & _ & _ & ->) | (w0 & -> & _)].
  - exact Hinv.
  - apply load_orders_try_inv.
Qed.

Lemma booth_body_inv (booth_number : string) (force_refresh : bool) (w : world) :
  all_orders_inv w ->
  all_orders_inv (snd (get_orders_by_booth_body booth_number force_refresh w)).
Proof.
  intros Hinv. unfold get_orders_by_booth_body. run.
  after_load load_orders_inv force_refresh w; specialize (Hinv1 Hinv); [| exact Hinv1].
  step_pure; try exact Hinv1.
  destruct force_refresh; cbn;
    (eapply all_orders_inv_other; [apply booth_key_ne | reflexivity | exact Hinv1]).
Qed.

Lemma exhibitor_body_inv (exhibitor_name : string) (force_refresh : bool) (w : world) :
  all_orders_inv w ->
  all_orders_inv (snd (get_orders_by_exhibitor_body exhibitor_name force_refresh w)).
Proof.
  intros Hinv. unfold get_orders_by_exhibitor_body. run.
  after_load load_orders_inv force_refresh w; specialize (Hinv1 Hinv); [| exact Hinv1].
  step_pure; try exact Hinv1.
  destruct force_refresh; cbn;
    (eapply all_orders_inv_other; [apply exhibitor_key_ne | reflexivity | exact Hinv1]).
Qed.

Lemma exhibitors_body_inv (force_refresh : bool) (w : world) :
  all_orders_inv w ->
  all_orders_inv (snd (get_exhibitors_body force_refresh w)).
Proof.
  intros Hinv. unfold get_exhibitors_body. run.
  after_load load_orders_inv force_refresh w; specialize (Hinv1 Hinv); [| exact Hinv1].
  step_pure; try exact Hinv1.
  cbn. eapply all_orders_inv_other; [| reflexivity | exact Hinv1]. discriminate.
Qed.

(** A cached entry point keeps the invariant when its body and its [except]
    clause do. *)
Lemma cached_try_inv (key : string) (force_refresh : bool)
    (body_ : M response) (except_ : exn -> M response) (w : world) :
  (forall w0, all_orders_inv w0 -> all_orders_inv (snd (body_ w0))) ->
  (forall e w0, CACHE (snd (except_ e w0)) = CACHE w0) ->
  all_orders_inv w ->
  all_orders_inv
    (snd ((if negb force_refresh then
             cached_data <-- get_from_cache key true ;;
             if truthy cached_data then ret (jsonify cached_data)
             else try_except body_ except_
           else try_except body_ except_) w)).
Proof.
  intros Hbody Hexc Hinv.
  destruct (cached_or_derive key force_refresh jsonify (try_except body_ except_) w)
    as [(_ & data & t & _ & _ & _ & Hm) | (w0 & Hm & Hc & _)];
    cbv zeta in Hm; rewrite Hm; cbn.
  - exact Hinv.
  - unfold try_except. pose proof (Hbody w0 (all_orders_inv_cache _ _ Hc Hinv)) as Hb.
    destruct (body_ w0) as [[r|e] w1]; cbn in *; [exact Hb |].
    eapply all_orders_inv_cache; [apply Hexc | exact Hb].
Qed.

Lemma handle_inv (r : request) (w : world) :
  all_orders_inv w -> all_orders_inv (snd (handle r w)).
Proof.
  intros Hinv. destruct r; cbn [handle].
  - unfold health_check. run. exact Hinv.
  - unfold abacus_status. run. exact Hinv.
  - unfold get_all_orders. run.
    after_load load_orders_inv (request_force_refresh arg) w; auto.
  - apply cached_try_inv; [apply booth_body_inv | | exact Hinv].
    intros e w0. unfold get_orders_by_booth_except. run. reflexivity.
  - apply cached_try_inv; [apply exhibitor_body_inv | | exact Hinv].
    intros e w0. unfold get_orders_by_exhibitor_except. run. reflexivity.
  - apply cached_try_inv; [apply exhibitors_body_inv | | exact Hinv].
    intros e w0. unfold get_exhibitors_except. run. reflexivity.
  - unfold get_stats. run.
    after_load load_orders_inv (request_force_refresh arg) w; specialize (Hinv1 Hinv); [| exact Hinv1].
    step_pure; exact Hinv1.
  - unfold clear_cache. run. intros v t. cbn. rewrite lookup_empty. discriminate.
Qed.

Lemma reachable_inv (w : world) : reachable w -> all_orders_inv w.
Proof.
  induction 1 as [| w r _ IH].
  - intros v t. cbn. rewrite lookup_empty. discriminate.
  - apply handle_inv, IH.
Qed.

Lemma stored_orders_nonempty (r : outcome pyval) :
  (forall v, r = Ret v -> exists l, v = PList l) ->
  exists l, stored_orders r = PList l /\ l <> []
            /\ (stored_orders r = get_mock_orders \/ r = Ret (stored_orders r)).
Proof.
  intros Hseq. destruct r as [v|e]; cbn.
  - destruct (usable v) eqn:Hu.
    + destruct (Hseq v eq_refl) as (l & ->). exists l.
      unfold usable in Hu. apply andb_true_iff in Hu. destruct Hu as [Ht _].
      split; [reflexivity |]. split; [| auto]. intros ->. discriminate.
    + eexists. split; [reflexivity |]. split; [discriminate | auto].
  - eexists. split; [reflexivity |]. split; [discriminate | auto].
Qed.

(** C10. When the upstream answers with sequences, in every world the
    process can reach the value stored under ["all_orders"] is a non-empty
    list, the mock orders or an upstream answer; and [load_orders_from_abacus]
    called in such a world returns a non-empty list. *)
Theorem all_orders_never_empty (w : world) :
  returns_sequences -> reachable w ->
  (forall v t, CACHE w !! "all_orders" = Some (v, t) ->
     exists l, v = PList l /\ l <> []
               /\ (v = get_mock_orders \/ exists n, source n = Ret v))
  /\ (forall force_refresh,
       exists l, fst (load_orders_from_abacus force_refresh w) = Ret (PList l) /\ l <> []
          /\ forall v t, CACHE (snd (load_orders_from_abacus force_refresh w)) !! "all_orders"
                          = Some (v, t) -> exists l', v = PList l' /\ l' <> []).
Proof.
  intros Hseq Hreach. pose proof (reachable_inv w Hreach) as Hinv.
  assert (Hgood : forall w', all_orders_inv w' ->
            forall v t, CACHE w' !! "all_orders" = Some (v, t) ->
            exists l, v = PList l /\ l <> []
                      /\ (v = get_mock_orders \/ exists n, source n = Ret v)).
  { intros w' Hinv' v t Hv. destruct (Hinv' v t Hv) as (n & ->).
    destruct (stored_orders_nonempty (source n) (Hseq n)) as (l & Hl & Hne & Hfrom).
    exists l. split; [exact Hl |]. split; [exact Hne |].
    destruct Hfrom as [Hm | Hs]; [left; exact Hm | right; exists n; exact Hs]. }
  split; [apply Hgood, Hinv |].
  intros force_refresh.
  pose proof (load_orders_inv force_refresh w Hinv) as Hinv'.
  destruct (load_orders_cases force_refresh w)
    as [(_ & data & t & Hc & _ & _ & Hl) | (w0 & Hl & _)].
  - rewrite Hl in *. cbn in *. destruct (Hgood w Hinv data t Hc) as (l & -> & Hne & _).
    exists l. split; [reflexivity |]. split; [exact Hne |].
    intros v t' Hv. destruct (Hgood w Hinv v t' Hv) as (l' & ? & ? & _). eauto.
  - rewrite Hl in *.
    destruct (load_orders_try_spec force_refresh w0) as (lg & Hspec & _).
    rewrite Hspec in *. cbn in *.
    destruct (stored_orders_nonempty (source (fetch_calls w0)) (Hseq _)) as (l & Hs & Hne & _).
    exists l. split; [congruence |]. split; [exact Hne |].
    intros v t' Hv. rewrite lookup_insert_eq in Hv. injection Hv as <- <-. eauto.
Qed.

(** C6. With an upstream that never delivers, two calls in a row without
    forced refresh both return the mock orders, from any world the process can
    reach; when the second call comes while the entry left by the first is
    fresh, it is answered without a call to the upstream.  The first mock
    order has id ["ORD-2025-001"] and status ["out-for-delivery"]. *)
Theorem idempotent_fallback (w : world) :
  always_fails -> reachable w ->
  let r1 := load_orders_from_abacus false w in
  let r2 := load_orders_from_abacus false (snd r1) in
  fst r1 = Ret get_mock_orders
  /\ fst r2 = Ret get_mock_orders
  /\ (exists t1, CACHE (snd r1) !! "all_orders" = Some (get_mock_orders, t1)
        /\ (fresh (clock (now_calls (snd r1))) t1 ->
            fetch_calls (snd r2) = fetch_calls (snd r1)
            /\ CACHE (snd r2) = CACHE (snd r1)))
  /\ (exists first rest, get_mock_orders = PList (first :: rest)
        /\ py_getitem first "id" = Ret (PStr "ORD-2025-001")
        /\ py_getitem first "status" = Ret (PStr "out-for-delivery")).
Proof.
  intros Hfail Hreach r1 r2.
  assert (Hmock : forall w0, all_orders_inv w0 ->
            fst (load_orders_from_abacus false w0) = Ret get_mock_orders
            /\ exists t1, CACHE (snd (load_orders_from_abacus false w0)) !! "all_orders"
                          = Some (get_mock_orders, t1)).
  { intros w0 Hinv0.
    destruct (load_orders_cases false w0)
      as [(_ & data & t & Hc & _ & _ & ->) | (w1 & -> & _)]; cbn.
    - destruct (Hinv0 data t Hc) as (n & ->).
      rewrite (stored_orders_failed _ (Hfail n)) in *. eauto.
    - destruct (load_orders_try_spec false w1) as (lg & -> & _). cbn.
      rewrite (stored_orders_failed _ (Hfail _)). rewrite lookup_insert_eq. eauto. }
  pose proof (reachable_inv w Hreach) as Hinv.
  pose proof (load_orders_inv false w Hinv) as Hinv1. fold r1 in Hinv1.
  destruct (Hmock w Hinv) as (H1 & t1 & Hc1). fold r1 in H1, Hc1.
  destruct (Hmock (snd r1) Hinv1) as (H2 & _). fold r2 in H2.
  split; [exact H1 |]. split; [exact H2 |]. split.
  - exists t1. split; [exact Hc1 |]. intros Hfresh. subst r2.
    clearbody r1. destruct r1 as [o1 wa]. cbn [fst snd] in *.
    unfold load_orders_from_abacus. cbn [negb]. run. rewrite Hc1. cbn.
    unfold fresh in Hfresh. apply Z.ltb_lt in Hfresh. rewrite Hfresh. cbn. auto.
  - eexists _, _. split; [reflexivity |]. split; reflexivity.
Qed.

(** ** Filtering by booth *)


Lemma field_matches_lower (field b1 b2 : string) (order : pyval) :
  lower b1 = lower b2 -> field_matches field b1 order = field_matches field b2 order.
Proof. intros H. unfold field_matches. rewrite H. reflexivity. Qed.

(** A comprehension that goes through keeps, in their order, the items whose
    condition holds. *)
Lemma comprehension_filter (cond : pyval -> outcome bool) (items keep : list pyval) :
  comprehension cond items = Ret keep ->
  keep = List.filter (fun o => match cond o with Ret c => c | Raise _ => false end) items
  /\ sublist keep items.
Proof.
  revert keep. induction items as [| o rest IH]; cbn; intros keep.
  - intros [= <-]. split; [reflexivity | constructor].
  - destruct (cond o) as [c|e]; cbn; [| discriminate].
    destruct (comprehension cond rest) as [k|e]; cbn; [| discriminate].
    destruct (IH k eq_refl) as [-> Hsub].
    intros [= <-]. destruct c; split; try reflexivity.
    + apply sublist_skip, Hsub.
    + apply sublist_cons, Hsub.
Qed.











(** ** Statistics *)

Lemma count_status_list (status : string) (l : list pyval) :
  Forall (fun o => exists s, py_getitem o "status" = Ret s) l ->
  count_status status (PList l) = Ret (count_with_status status l).
Proof.
  intros Hall. unfold count_status, count_with_status. cbn.
  assert (H : comprehension (status_is status) l = Ret (List.filter (has_status status) l)).
  { induction Hall as [| o rest (s0 & Hs) _ IH]; cbn; [reflexivity |].
    unfold status_is at 1, has_status at 1. rewrite Hs. cbn. rewrite IH. cbn.
    reflexivity. }
  rewrite H. reflexivity.
Qed.

(** C9. When the order set is a list whose items all carry a status, the
    statistics are its length and, for each of the five status values, the
    number of items with that status; for the four mock orders they are 4
    orders, 1 delivered, 1 in process, 1 in route, 1 out for delivery and none
    cancelled. *)
Theorem stats_counts (arg : option string) (w w1 : world) (l : list pyval) :
  (load_orders_from_abacus (request_force_refresh arg) w = (Ret (PList l), w1) ->
   Forall (fun o => exists s, py_getitem o "status" = Ret s) l ->
   fst (get_stats arg w)
   = Ret (jsonify (PDict [("total_orders", PInt (Z.of_nat (length l)));
                          ("delivered", PInt (count_with_status "delivered" l));
                          ("in_process", PInt (count_with_status "in-process" l));
                          ("in_route", PInt (count_with_status "in-route" l));
                          ("out_for_delivery", PInt (count_with_status "out-for-delivery" l));
                          ("cancelled", PInt (count_with_status "cancelled" l));
                          ("last_updated", PStr (isoformat (clock (now_calls w1))))])))
  /\ (load_orders_from_abacus (request_force_refresh arg) w = (Ret get_mock_orders, w1) ->
      fst (get_stats arg w)
      = Ret (jsonify (PDict [("total_orders", PInt 4);
                             ("delivered", PInt 1);
                             ("in_process", PInt 1);
                             ("in_route", PInt 1);
                             ("out_for_delivery", PInt 1);
                             ("cancelled", PInt 0);
                             ("last_updated", PStr (isoformat (clock (now_calls w1))))]))).
Proof.
  split.
  - intros Hl Hall. unfold get_stats. run. rewrite Hl.
    rewrite !(count_status_list _ _ Hall). reflexivity.
  - intros Hl. unfold get_stats. run. rewrite Hl. reflexivity.
Qed.

(** ** The roster *)

Lemma key_eqb_sym (a b : pyval) : key_eqb a b = key_eqb b a.
Proof.
  destruct a as [|x|x|x|x|x], b as [|y|y|y|y|y]; cbn [key_eqb]; try reflexivity;
    try apply Z.eqb_sym; try apply String.eqb_sym.
  destruct x, y; reflexivity.
Qed.

Lemma key_eqb_trans (a b c : pyval) :
  key_eqb a b = true -> key_eqb b c = true -> key_eqb a c = true.
Proof.
  destruct a as [|x|x|x|x|x], b as [|y|y|y|y|y], c as [|z|z|z|z|z]; cbn [key_eqb];
    try discriminate; try reflexivity;
    rewrite ?Z.eqb_eq, ?String.eqb_eq, ?Bool.eqb_true_iff; try congruence; try lia;
    intros H1 H2;
    repeat match goal with b : bool |- _ => destruct b end;
    cbn in *; solve [reflexivity | lia | congruence].
Qed.

Lemma key_eqb_refl (a : pyval) : hashable a = true -> key_eqb a a = true.
Proof.
  destruct a as [|x|x|x|x|x]; cbn; try discriminate; try reflexivity; intros _.
  - apply Bool.eqb_reflx.
  - apply Z.eqb_refl.
  - apply String.eqb_refl.
Qed.

Lemma key_eqb_congr (k a b : pyval) :
  key_eqb a b = true -> key_eqb k a = key_eqb k b.
Proof.
  intros Hab. destruct (key_eqb k a) eqn:Ha, (key_eqb k b) eqn:Hb; try reflexivity.
  - rewrite (key_eqb_trans k a b Ha Hab) in Hb. discriminate.
  - rewrite key_eqb_sym in Hab. rewrite (key_eqb_trans k b a Hb Hab) in Ha. discriminate.
Qed.

Lemma key_in_congr (a b : pyval) (d : list (pyval * exhibitor_entry)) :
  key_eqb a b = true -> key_in a d = key_in b d.
Proof.
  intros Hab. induction d as [| [k e] d IH]; cbn; [reflexivity |].
  rewrite IH, (key_eqb_congr k a b Hab). reflexivity.
Qed.

Lemma key_in_false_In (m : pyval) (d : list (pyval * exhibitor_entry)) (kv : pyval * exhibitor_entry) :
  key_in m d = false -> In kv d -> key_eqb (fst kv) m = false.
Proof.
  induction d as [| [k e] d IH]; cbn; [tauto |].
  intros H [<- | Hin]; apply orb_false_iff in H as [H1 H2]; auto.
Qed.

Lemma key_in_update (f : exhibitor_entry -> exhibitor_entry) (k m : pyval)
    (d : list (pyval * exhibitor_entry)) :
  key_in m (dict_update f k d) = key_in m d.
Proof.
  induction d as [| [k' e] d IH]; cbn; [reflexivity |].
  destruct (key_eqb k' k); cbn; [reflexivity | rewrite IH; reflexivity].
Qed.

Lemma key_in_app (m : pyval) (d d' : list (pyval * exhibitor_entry)) :
  key_in m (d ++ d') = key_in m d || key_in m d'.
Proof.
  induction d as [| [k e] d IH]; cbn; [reflexivity |].
  rewrite IH, orb_assoc. reflexivity.
Qed.

Lemma distinct_update (f : exhibitor_entry -> exhibitor_entry) (k : pyval)
    (d : list (pyval * exhibitor_entry)) :
  distinct_keys d -> distinct_keys (dict_update f k d).
Proof.
  induction d as [| [k' e] d IH]; cbn; [auto |].
  intros (Hh & Hin & Hd). destruct (key_eqb k' k); cbn; [auto |].
  rewrite key_in_update. auto.
Qed.

Lemma distinct_snoc (d : list (pyval * exhibitor_entry)) (n : pyval) (e : exhibitor_entry) :
  distinct_keys d -> key_in n d = false -> hashable n = true ->
  distinct_keys (d ++ [(n, e)]).
Proof.
  induction d as [| [k e'] d IH]; cbn.
  - auto.
  - intros (Hh & Hin & Hd) Hn Hhn. apply orb_false_iff in Hn as [Hkn Hn].
    split; [exact Hh |]. split; [| auto].
    rewrite key_in_app, Hin. cbn. rewrite orb_false_r, key_eqb_sym. exact Hkn.
Qed.

Lemma dict_update_snoc (f : exhibitor_entry -> exhibitor_entry) (k n : pyval)
    (e : exhibitor_entry) (d : list (pyval * exhibitor_entry)) :
  key_in k d = false ->
  dict_update f k (d ++ [(n, e)]) = (d ++ [(n, if key_eqb n k then f e else e)])%list.
Proof.
  induction d as [| [k' e'] d IH]; cbn.
  - intros _. destruct (key_eqb n k); reflexivity.
  - intros H. apply orb_false_iff in H as [H1 H2]. rewrite H1, IH by exact H2. reflexivity.
Qed.

Lemma dict_update_twice (f g : exhibitor_entry -> exhibitor_entry) (k : pyval)
    (d : list (pyval * exhibitor_entry)) :
  dict_update g k (dict_update f k d) = dict_update (fun e => g (f e)) k d.
Proof.
  induction d as [| [k' e] d IH]; cbn; [reflexivity |].
  destruct (key_eqb k' k) eqn:H; cbn; rewrite H; [reflexivity | rewrite IH; reflexivity].
Qed.

Lemma dict_update_ext (f g : exhibitor_entry -> exhibitor_entry) (k : pyval)
    (d : list (pyval * exhibitor_entry)) :
  (forall e, f e = g e) -> dict_update f k d = dict_update g k d.
Proof.
  intros Hfg. induction d as [| [k' e] d IH]; cbn; [reflexivity |].
  rewrite Hfg, IH. reflexivity.
Qed.

Lemma bump_one (e : exhibitor_entry) (o : pyval) :
  bump e [o] = if has_status "delivered" o then incr_delivered (incr_total e)
               else incr_total e.
Proof.
  unfold bump, count_with_status, incr_delivered, incr_total. cbn.
  destruct (has_status "delivered" o); cbn; f_equal; lia.
Qed.

Lemma bump_bump (e : exhibitor_entry) (g1 g2 : list pyval) :
  bump (bump e g1) g2 = bump e (g1 ++ g2).
Proof.
  unfold bump, count_with_status. cbn.
  rewrite List.filter_app, !length_app, !Nat2Z.inj_add. f_equal; lia.
Qed.

Lemma roster_step_in (d : list (pyval * exhibitor_entry)) (o : pyval) :
  key_in (exhibitor_of o) d = true ->
  roster_step d o = dict_update (fun e => bump e [o]) (exhibitor_of o) d.
Proof.
  intros Hin. unfold roster_step. rewrite Hin.
  destruct (has_status "delivered" o) eqn:Hs.
  - rewrite dict_update_twice. apply dict_update_ext. intros e.
    rewrite bump_one, Hs. reflexivity.
  - apply dict_update_ext. intros e. rewrite bump_one, Hs. reflexivity.
Qed.

Lemma roster_step_out (d : list (pyval * exhibitor_entry)) (o : pyval) :
  key_in (exhibitor_of o) d = false -> hashable (exhibitor_of o) = true ->
  roster_step d o
  = (d ++ [(exhibitor_of o, bump (mkEntry (exhibitor_of o) (booth_of o) 0 0) [o])])%list.
Proof.
  intros Hin Hh. unfold roster_step. rewrite Hin.
  rewrite dict_update_snoc, key_eqb_refl by assumption.
  rewrite bump_one.
  destruct (has_status "delivered" o); [| reflexivity].
  rewrite dict_update_snoc, key_eqb_refl by assumption. reflexivity.
Qed.

Lemma roster_step_distinct (d : list (pyval * exhibitor_entry)) (o : pyval) :
  hashable (exhibitor_of o) = true -> distinct_keys d -> distinct_keys (roster_step d o).
Proof.
  intros Hh Hd. destruct (key_in (exhibitor_of o) d) eqn:Hin.
  - rewrite roster_step_in by exact Hin. apply distinct_update, Hd.
  - rewrite roster_step_out by assumption. apply distinct_snoc; assumption.
Qed.

Lemma well_formed_hashable (o : pyval) :
  well_formed_order o -> hashable (exhibitor_of o) = true.
Proof. intros ((n & Hn & Hh) & _). unfold exhibitor_of. rewrite Hn. exact Hh. Qed.

Lemma roster_loop_cons (o : pyval) (rest : list pyval) (d : list (pyval * exhibitor_entry)) :
  well_formed_order o ->
  roster_loop (o :: rest) d = roster_loop rest (roster_step d o).
Proof.
  intros ((n & Hn & Hh) & (b & Hb) & (s0 & Hs)).
  cbn [roster_loop]. unfold roster_step, exhibitor_of, booth_of, has_status, dict_contains.
  rewrite Hn, Hb, Hs. cbn [obind]. rewrite Hh. cbn [obind]. reflexivity.
Qed.

Lemma filter_absorb {A : Type} (P Q : A -> bool) (l : list A) :
  (forall x, P x = true -> Q x = true) ->
  List.filter P (List.filter Q l) = List.filter P l.
Proof.
  intros HPQ. induction l as [| x l IH]; cbn; [reflexivity |].
  destruct (Q x) eqn:HQ; cbn.
  - rewrite IH. reflexivity.
  - destruct (P x) eqn:HP; [| exact IH]. rewrite (HPQ x HP) in HQ. discriminate.
Qed.

Lemma filter_filter_andb {A : Type} (P Q : A -> bool) (l : list A) :
  List.filter P (List.filter Q l) = List.filter (fun x => P x && Q x) l.
Proof.
  induction l as [| x l IH]; cbn; [reflexivity |].
  destruct (Q x); cbn; rewrite ?andb_true_r, ?andb_false_r.
  - rewrite IH. reflexivity.
  - exact IH.
Qed.

Lemma summary_step (m o : pyval) (rest : list pyval) :
  key_eqb m (exhibitor_of o) = false -> summary_of m (o :: rest) = summary_of m rest.
Proof. intros H. unfold summary_of, group_of. cbn. rewrite H. reflexivity. Qed.

Lemma map_bump_step (d : list (pyval * exhibitor_entry)) (o : pyval) (rest : list pyval) :
  distinct_keys d ->
  map (fun kv => (fst kv, bump (snd kv) (group_of (fst kv) rest)))
      (dict_update (fun e => bump e [o]) (exhibitor_of o) d)
  = map (fun kv => (fst kv, bump (snd kv) (group_of (fst kv) (o :: rest)))) d.
Proof.
  induction d as [| [k e] d IH]; cbn [map dict_update fst snd distinct_keys]; [reflexivity |].
  intros (Hh & Hin & Hd).
  destruct (key_eqb k (exhibitor_of o)) eqn:Hk; cbn [map fst snd].
  - f_equal.
    + f_equal. rewrite bump_bump. unfold group_of. cbn. rewrite Hk. reflexivity.
    + apply map_ext_in. intros kv Hkv. f_equal. f_equal.
      unfold group_of. cbn.
      rewrite <- (key_eqb_congr (fst kv) k (exhibitor_of o) Hk).
      rewrite (key_in_false_In k d kv Hin Hkv). reflexivity.
  - f_equal; [| apply IH, Hd].
    f_equal. f_equal. unfold group_of. cbn. rewrite Hk. reflexivity.
Qed.

Lemma merge_step (d : list (pyval * exhibitor_entry)) (o : pyval) (rest : list pyval) :
  hashable (exhibitor_of o) = true -> distinct_keys d ->
  merge (roster_step d o) rest = merge d (o :: rest).
Proof.
  intros Hh Hd. destruct (key_in (exhibitor_of o) d) eqn:Hin.
  - rewrite roster_step_in by exact Hin. unfold merge. f_equal.
    + apply map_bump_step, Hd.
    + cbn [map first_seen List.filter]. rewrite Hin. cbn [negb].
      rewrite (List.filter_ext _ (fun n => negb (key_in n d)))
        by (intros n; rewrite key_in_update; reflexivity).
      rewrite filter_absorb.
      2: { intros m Hm. apply negb_true_iff in Hm. apply negb_true_iff.
           destruct (key_eqb (exhibitor_of o) m) eqn:Hom; [| reflexivity].
           rewrite (key_in_congr _ _ d Hom) in Hin. congruence. }
      apply map_ext_in. intros m Hm. apply List.filter_In in Hm as [_ Hm].
      apply negb_true_iff in Hm. f_equal. symmetry. apply summary_step.
      destruct (key_eqb m (exhibitor_of o)) eqn:Hmo; [| reflexivity].
      rewrite (key_in_congr _ _ d Hmo) in Hm. congruence.
  - rewrite roster_step_out by assumption. unfold merge.
    rewrite map_app, <- app_assoc. f_equal.
    + apply map_ext_in. intros kv Hkv. f_equal. f_equal.
      unfold group_of. cbn. rewrite (key_in_false_In _ d kv Hin Hkv). reflexivity.
    + cbn [map first_seen List.filter fst snd app]. rewrite Hin. cbn [negb map].
      f_equal.
      * f_equal. rewrite bump_bump. unfold summary_of, group_of, bump. cbn.
        rewrite (key_eqb_refl _ Hh). cbn. f_equal.
      * rewrite filter_filter_andb.
        rewrite (List.filter_ext _ (fun n => negb (key_in n d) && negb (key_eqb (exhibitor_of o) n))).
        2: { intros n. rewrite key_in_app. cbn. rewrite orb_false_r, negb_orb. reflexivity. }
        apply map_ext_in. intros m Hm. apply List.filter_In in Hm as [_ Hm].
        apply andb_true_iff in Hm as [_ Hm]. apply negb_true_iff in Hm.
        f_equal. symmetry. apply summary_step. rewrite key_eqb_sym. exact Hm.
Qed.

(** The loop, started with the dictionary [d], ends with [merge d orders]. *)
Lemma roster_loop_merge (orders : list pyval) (d : list (pyval * exhibitor_entry)) :
  Forall well_formed_order orders -> distinct_keys d ->
  roster_loop orders d = Ret (merge d orders).
Proof.
  intros Hall. revert d. induction Hall as [| o rest Ho _ IH]; intros d Hd.
  - cbn. unfold merge. cbn. rewrite app_nil_r. f_equal.
    rewrite <- (map_id d) at 1. apply map_ext. intros [k [n b t dl]].
    unfold bump, count_with_status. cbn. rewrite !Z.add_0_r. reflexivity.
  - pose proof (well_formed_hashable o Ho) as Hh.
    rewrite roster_loop_cons by exact Ho.
    rewrite IH by (apply roster_step_distinct; assumption).
    rewrite merge_step by assumption. reflexivity.
Qed.

Lemma roster_loop_spec (orders : list pyval) :
  Forall well_formed_order orders ->
  exists d, roster_loop orders [] = Ret d
            /\ map (fun kv => entry_to_dict (snd kv)) d = roster_spec orders.
Proof.
  intros Hall. exists (merge [] orders). split.
  - apply roster_loop_merge; [exact Hall | exact I].
  - unfold merge, roster_spec. cbn [map app key_in negb].
    rewrite map_map. cbn [snd].
    f_equal. induction (first_seen (map exhibitor_of orders)) as [| x l IH]; cbn;
      [reflexivity | rewrite IH; reflexivity].
Qed.

(** C8, as the code has it.  Over orders that carry the three fields the
    loop reads, the roster is the grouping by [exhibitor_name]: one summary
    per key, named and located by the first order of its group, with the
    number of its orders and of its delivered orders, in the order in which
    the keys are first seen.  The four mock orders name three exhibitors, so
    their roster has three entries, the first being TechFlow Innovations with
    two orders, none of them delivered. *)
Theorem roster_groups_by_exhibitor (orders : list pyval) (arg : option string)
    (w w1 : world) :
  let fr := request_force_refresh arg in
  (Forall well_formed_order orders ->
   (exists d, roster_loop orders [] = Ret d
              /\ map (fun kv => entry_to_dict (snd kv)) d = roster_spec orders)
   /\ (load_orders_from_abacus fr w = (Ret (PList orders), w1) ->
       fst (get_exhibitors_body fr w) = Ret (jsonify (PList (roster_spec orders)))))
  /\ (load_orders_from_abacus fr w = (Ret get_mock_orders, w1) ->
      fst (get_exhibitors_body fr w)
      = Ret (jsonify (PList [
          PDict [("name", PStr "TechFlow Innovations"); ("booth", PStr "A-245");
                 ("total_orders", PInt 2); ("delivered_orders", PInt 0)];
          PDict [("name", PStr "GreenWave Energy"); ("booth", PStr "B-156");
                 ("total_orders", PInt 1); ("delivered_orders", PInt 1)];
          PDict [("name", PStr "SmartHealth Corp"); ("booth", PStr "C-089");
                 ("total_orders", PInt 1); ("delivered_orders", PInt 0)]]))).
Proof.
  intros fr. split.
  - intros Hall. destruct (roster_loop_spec orders Hall) as (d & Hd & Hspec).
    split; [eauto |].
    intros Hl. unfold get_exhibitors_body. run. rewrite Hl. cbn. rewrite Hd. cbn.
    rewrite Hspec. reflexivity.
  - intros Hl. unfold get_exhibitors_body. run. rewrite Hl. reflexivity.
Qed.

(** ** More on the fetch orchestration *)

Lemma usable_nonempty_container (v : pyval) : usable v = nonempty_container v.
Proof.
  unfold usable. destruct v as [|b|z|s0|l|d]; cbn; try reflexivity.
  - apply andb_false_r.
  - apply andb_false_r.
  - destruct s0; reflexivity.
  - destruct l; reflexivity.
  - destruct d; reflexivity.
Qed.

(** X1. A forced load hands a non-empty list, dictionary or string of the
    upstream through unchanged and stores it; any other answer ([None], a
    boolean, a number whatever its value, an empty container) is replaced by
    the mock orders, which are stored instead. *)
Theorem upstream_answer_or_mock (w : world) (v : pyval) :
  source (fetch_calls w) = Ret v ->
  let kept := if nonempty_container v then v else get_mock_orders in
  fst (load_orders_from_abacus true w) = Ret kept
  /\ CACHE (snd (load_orders_from_abacus true w)) !! "all_orders"
     = Some (kept, clock (now_calls w)).
Proof.
  intros Hs kept. unfold load_orders_from_abacus. cbn [negb].
  destruct (load_orders_try_spec true w) as (lg & -> & _). cbn.
  rewrite Hs. cbn. rewrite usable_nonempty_container. fold kept.
  split; [reflexivity | apply lookup_insert_eq].
Qed.

(** X2. What [load_orders_from_abacus] returns is what the cache holds under
    ["all_orders"] when it is done; and a second call without forced refresh,
    made while that entry is fresh, returns the same value, calls the upstream
    no more and leaves the cache as it is. *)
Theorem load_then_reload (force_refresh : bool) (w : world) :
  exists v t,
    fst (load_orders_from_abacus force_refresh w) = Ret v
    /\ CACHE (snd (load_orders_from_abacus force_refresh w)) !! "all_orders" = Some (v, t)
    /\ (fresh (clock (now_calls (snd (load_orders_from_abacus force_refresh w)))) t ->
        let again := load_orders_from_abacus false
                       (snd (load_orders_from_abacus force_refresh w)) in
        fst again = Ret v
        /\ fetch_calls (snd again)
           = fetch_calls (snd (load_orders_from_abacus force_refresh w))
        /\ CACHE (snd again) = CACHE (snd (load_orders_from_abacus force_refresh w))).
Proof.
  assert (Hhit : forall w' v t,
            CACHE w' !! "all_orders" = Some (v, t) -> truthy v = true ->
            fresh (clock (now_calls w')) t ->
            fst (load_orders_from_abacus false w') = Ret v
            /\ fetch_calls (snd (load_orders_from_abacus false w')) = fetch_calls w'
            /\ CACHE (snd (load_orders_from_abacus false w')) = CACHE w').
  { intros w' v t Hc Ht Hf. unfold load_orders_from_abacus. cbn [negb]. run.
    rewrite Hc. cbn. unfold fresh in Hf. apply Z.ltb_lt in Hf. rewrite Hf. cbn.
    rewrite Ht. cbn. auto. }
  destruct (load_orders_cases force_refresh w)
    as [(_ & data & t & Hc & Hf & Ht & ->) | (w0 & -> & _)]; cbn [fst snd].
  - exists data, t. split; [reflexivity |]. split; [exact Hc |].
    intros Hfresh. apply (Hhit _ data t); assumption.
  - destruct (load_orders_try_spec force_refresh w0) as (lg & -> & _). cbn [fst snd].
    eexists _, _. split; [reflexivity |]. split; [apply lookup_insert_eq |].
    intros Hfresh. eapply Hhit; [apply lookup_insert_eq | apply stored_orders_truthy | exact Hfresh].
Qed.

(** X3. Expiry is lazy.  An unforced load that finds an entry of 120 seconds
    or more under ["all_orders"] calls the upstream once and puts its result
    in the place of the old entry, stamped with the clock reading that follows
    the one used for the lookup; one that finds no entry does the same without
    having read the clock for the lookup. *)
Theorem stale_entry_is_replaced (w : world) :
  (forall data t,
     CACHE w !! "all_orders" = Some (data, t) ->
     timedelta_seconds CACHE_DURATION <= clock (now_calls w) - t ->
     fst (load_orders_from_abacus false w) = Ret (stored_orders (source (fetch_calls w)))
     /\ fetch_calls (snd (load_orders_from_abacus false w)) = S (fetch_calls w)
     /\ CACHE (snd (load_orders_from_abacus false w))
        = <["all_orders" := (stored_orders (source (fetch_calls w)),
                             clock (S (now_calls w)))]> (CACHE w))
  /\ (CACHE w !! "all_orders" = None ->
      fst (load_orders_from_abacus false w) = Ret (stored_orders (source (fetch_calls w)))
      /\ fetch_calls (snd (load_orders_from_abacus false w)) = S (fetch_calls w)
      /\ CACHE (snd (load_orders_from_abacus false w))
         = <["all_orders" := (stored_orders (source (fetch_calls w)),
                              clock (now_calls w))]> (CACHE w)).
Proof.
  split.
  - intros data t Hc Hstale. unfold load_orders_from_abacus. cbn [negb]. run.
    rewrite Hc. cbn. apply Z.ltb_ge in Hstale. rewrite Hstale. cbn.
    match goal with |- context [load_orders_try false ?w0] =>
      destruct (load_orders_try_spec false w0) as (lg & -> & _) end.
    cbn. auto.
  - intros Hc. unfold load_orders_from_abacus. cbn [negb]. run.
    rewrite Hc. cbn.
    destruct (load_orders_try_spec false w) as (lg & -> & _). cbn. auto.
Qed.

(** ** Clearing the cache *)

(** X4. After [clear_cache] every lookup misses, whatever the key;
    [health_check] reports a cache of size 0; and the next unforced load has
    to call the upstream. *)
Theorem clear_cache_empties (w : world) :
  let w' := snd (clear_cache w) in
  fst (clear_cache w) = Ret (jsonify (PDict [("message", PStr "Cache cleared successfully")]))
  /\ (forall key allow_cache, fst (get_from_cache key allow_cache w') = Ret PNone)
  /\ py_getitem (body (answer_of (fst (health_check w')))) "cache_size" = Ret (PInt 0)
  /\ fetch_calls (snd (load_orders_from_abacus false w')) = S (fetch_calls w).
Proof.
  intros w'. subst w'. unfold clear_cache. run.
  split; [reflexivity |]. split; [| split].
  - intros key [|]; cbn; [rewrite lookup_empty |]; reflexivity.
  - unfold health_check. run. reflexivity.
  - unfold load_orders_from_abacus. cbn [negb]. run. rewrite lookup_empty.
    cbn [truthy fst snd].
    match goal with |- context [load_orders_try false ?w0] =>
      destruct (load_orders_try_spec false w0) as (lg & -> & _) end.
    reflexivity.
Qed.

(** ** The refresh flag of a request *)

Lemma ascii_lower_t (c : ascii) : ascii_lower c = "t"%char -> c = "t"%char \/ c = "T"%char.
Proof.
  destruct c as [[] [] [] [] [] [] [] []]; vm_compute; intros H;
    solve [discriminate H | auto].
Qed.

Lemma ascii_lower_r (c : ascii) : ascii_lower c = "r"%char -> c = "r"%char \/ c = "R"%char.
Proof.
  destruct c as [[] [] [] [] [] [] [] []]; vm_compute; intros H;
    solve [discriminate H | auto].
Qed.

Lemma ascii_lower_u (c : ascii) : ascii_lower c = "u"%char -> c = "u"%char \/ c = "U"%char.
Proof.
  destruct c as [[] [] [] [] [] [] [] []]; vm_compute; intros H;
    solve [discriminate H | auto].
Qed.

Lemma ascii_lower_e (c : ascii) : ascii_lower c = "e"%char -> c = "e"%char \/ c = "E"%char.
Proof.
  destruct c as [[] [] [] [] [] [] [] []]; vm_compute; intros H;
    solve [discriminate H | auto].
Qed.

(** X5. A request forces the refresh exactly when its [force_refresh]
    parameter is one of the sixteen spellings of [true] in upper and lower
    case; a missing parameter, and any other text, does not. *)
Theorem force_refresh_spellings (arg : option string) :
  request_force_refresh arg = true <->
  exists c1 c2 c3 c4,
    arg = Some (String c1 (String c2 (String c3 (String c4 EmptyString))))
    /\ (c1 = "t" \/ c1 = "T")%char /\ (c2 = "r" \/ c2 = "R")%char
    /\ (c3 = "u" \/ c3 = "U")%char /\ (c4 = "e" \/ c4 = "E")%char.
Proof.
  unfold request_force_refresh. rewrite String.eqb_eq. split.
  - destruct arg as [s0|]; [| discriminate].
    destruct s0 as [| c1 [| c2 [| c3 [| c4 [| c5 s0]]]]]; cbn; try discriminate.
    intros [= H1 H2 H3 H4]. exists c1, c2, c3, c4.
    split; [reflexivity |].
    auto using ascii_lower_t, ascii_lower_r, ascii_lower_u, ascii_lower_e.
  - intros (c1 & c2 & c3 & c4 & -> & [-> | ->] & [-> | ->] & [-> | ->] & [-> | ->]);
      reflexivity.
Qed.

(** ** More on the statistics *)

Lemma has_status_status_is (status : string) (o : pyval) :
  has_status status o = match status_is status o with Ret c => c | Raise _ => false end.
Proof. unfold has_status, status_is. destruct (py_getitem o "status"); reflexivity. Qed.

Lemma comprehension_raise (cond : pyval -> outcome bool) (before after : list pyval)
    (o : pyval) (e : exn) :
  Forall (fun o' => exists c, cond o' = Ret c) before ->
  cond o = Raise e ->
  comprehension cond (before ++ o :: after) = Raise e.
Proof.
  intros Hb Ho. induction Hb as [| o' rest (c & Hc) _ IH]; cbn.
  - rewrite Ho. reflexivity.
  - rewrite Hc. cbn. rewrite IH. reflexivity.
Qed.

(** X6. [get_stats] has no [try] statement: when the order list holds an
    order without a readable [status], the exception raised for the first
    such order leaves the route, after the load has done its writes. *)
Theorem stats_lets_exceptions_through (arg : option string) (w w1 : world)
    (before after : list pyval) (o : pyval) (e : exn) :
  load_orders_from_abacus (request_force_refresh arg) w
  = (Ret (PList (before ++ o :: after)), w1) ->
  Forall (fun o' => exists s, py_getitem o' "status" = Ret s) before ->
  py_getitem o "status" = Raise e ->
  get_stats arg w = (Raise e, w1).
Proof.
  intros Hl Hb Ho.
  assert (Hc : count_status "delivered" (PList (before ++ o :: after)) = Raise e).
  { unfold count_status. cbn.
    rewrite (comprehension_raise (status_is "delivered") before after o e).
    - reflexivity.
    - eapply Forall_impl; [exact Hb |]. intros o' (s0 & Hs). unfold status_is.
      rewrite Hs. eexists. reflexivity.
    - unfold status_is. rewrite Ho. reflexivity. }
  unfold get_stats. run. rewrite Hl. cbn -[count_status]. rewrite Hc. reflexivity.
Qed.

Lemma chars_length (s0 : string) : length (chars s0) = String.length s0.
Proof. induction s0 as [| c s0 IH]; cbn; [reflexivity | rewrite IH; reflexivity]. Qed.

Lemma len_iter (v : pyval) (n : Z) (items : list pyval) :
  py_len v = Ret n -> py_iter v = Ret items -> n = Z.of_nat (length items).
Proof.
  destruct v as [|b|z|s0|l|d]; cbn; try discriminate; intros [= <-] [= <-].
  - rewrite chars_length. reflexivity.
  - reflexivity.
  - rewrite length_map. reflexivity.
Qed.

Lemma five_statuses_disjoint (o : pyval) :
  (Nat.b2n (has_status "delivered" o) + Nat.b2n (has_status "in-process" o)
   + Nat.b2n (has_status "in-route" o) + Nat.b2n (has_status "out-for-delivery" o)
   + Nat.b2n (has_status "cancelled" o) <= 1)%nat.
Proof.
  unfold has_status. destruct (py_getitem o "status") as [v|e]; cbn; [| lia].
  destruct v as [|b|z|s0|l|d]; cbn; try lia.
  destruct (String.eqb_spec s0 "delivered") as [-> |]; [cbn; lia |].
  destruct (String.eqb_spec s0 "in-process") as [-> |]; [cbn; lia |].
  destruct (String.eqb_spec s0 "in-route") as [-> |]; [cbn; lia |].
  destruct (String.eqb_spec s0 "out-for-delivery") as [-> |]; [cbn; lia |].
  destruct (String.eqb_spec s0 "cancelled"); cbn; lia.
Qed.

Lemma filter_length_b2n {A : Type} (f : A -> bool) (x : A) (l : list A) :
  length (List.filter f (x :: l)) = (Nat.b2n (f x) + length (List.filter f l))%nat.
Proof. cbn. destruct (f x); reflexivity. Qed.

Lemma five_counts_bound (items : list pyval) :
  count_with_status "delivered" items + count_with_status "in-process" items
  + count_with_status "in-route" items + count_with_status "out-for-delivery" items
  + count_with_status "cancelled" items <= Z.of_nat (length items).
Proof.
  unfold count_with_status. induction items as [| o rest IH]; [cbn; lia |].
  rewrite !filter_length_b2n. pose proof (five_statuses_disjoint o). cbn [length]. lia.
Qed.

Lemma count_status_ret (status : string) (v : pyval) (items : list pyval) (n : Z) :
  py_iter v = Ret items -> count_status status v = Ret n ->
  n = count_with_status status items.
Proof.
  intros Hi. unfold count_status. rewrite Hi. cbn.
  destruct (comprehension (status_is status) items) as [hits|e] eqn:Hc; cbn; [| discriminate].
  intros [= <-]. apply comprehension_filter in Hc as [-> _].
  unfold count_with_status. f_equal. f_equal. apply List.filter_ext.
  intros o. symmetry. apply has_status_status_is.
Qed.

(** X7. Whenever [get_stats] answers, the five status counts it reports are
    non-negative and together do not exceed [total_orders]: no order is
    counted under two statuses, and an order whose status is none of the five
    is counted in the total only. *)
Theorem stats_counts_bounded (arg : option string) (w : world) (resp : response) :
  fst (get_stats arg w) = Ret resp ->
  exists total delivered in_process in_route out_for_delivery cancelled,
    py_getitem (body resp) "total_orders" = Ret (PInt total)
    /\ py_getitem (body resp) "delivered" = Ret (PInt delivered)
    /\ py_getitem (body resp) "in_process" = Ret (PInt in_process)
    /\ py_getitem (body resp) "in_route" = Ret (PInt in_route)
    /\ py_getitem (body resp) "out_for_delivery" = Ret (PInt out_for_delivery)
    /\ py_getitem (body resp) "cancelled" = Ret (PInt cancelled)
    /\ 0 <= delivered /\ 0 <= in_process /\ 0 <= in_route
    /\ 0 <= out_for_delivery /\ 0 <= cancelled
    /\ delivered + in_process + in_route + out_for_delivery + cancelled <= total.
Proof.
  unfold get_stats. run.
  destruct (load_orders_from_abacus (request_force_refresh arg) w) as [[v|e] w1];
    [| discriminate].
  destruct (py_len v) as [total|e] eqn:Hlen; cbn; [| discriminate].
  destruct (count_status "delivered" v) as [n1|e] eqn:H1; cbn; [| discriminate].
  destruct (count_status "in-process" v) as [n2|e] eqn:H2; cbn; [| discriminate].
  destruct (count_status "in-route" v) as [n3|e] eqn:H3; cbn; [| discriminate].
  destruct (count_status "out-for-delivery" v) as [n4|e] eqn:H4; cbn; [| discriminate].
  destruct (count_status "cancelled" v) as [n5|e] eqn:H5; cbn; [| discriminate].
  intros [= <-]. exists total, n1, n2, n3, n4, n5. cbn.
  repeat (split; [reflexivity |]).
  destruct (py_iter v) as [items|e] eqn:Hi;
    [| unfold count_status in H1; rewrite Hi in H1; discriminate].
  rewrite (len_iter v total items Hlen Hi).
  rewrite (count_status_ret _ _ _ _ Hi H1), (count_status_ret _ _ _ _ Hi H2),
    (count_status_ret _ _ _ _ Hi H3), (count_status_ret _ _ _ _ Hi H4),
    (count_status_ret _ _ _ _ Hi H5).
  pose proof (five_counts_bound items). unfold count_with_status in *. lia.
Qed.

(** ** The bundles of the filtered routes *)

Lemma comprehension_kept (cond : pyval -> outcome bool) (items keep : list pyval) :
  comprehension cond items = Ret keep ->
  Forall (fun o => cond o = Ret true) keep.
Proof.
  intros Hk. destruct (comprehension_filter cond items keep Hk) as [-> _].
  apply List.Forall_forall. intros o Ho. apply List.filter_In in Ho as [_ Ho].
  destruct (cond o) as [[|]|e]; try discriminate. reflexivity.
Qed.

Lemma delivered_count (keep delivered : list pyval) :
  comprehension (status_is "delivered") keep = Ret delivered ->
  Z.of_nat (length delivered) = count_with_status "delivered" keep
  /\ 0 <= Z.of_nat (length delivered) <= Z.of_nat (length keep).
Proof.
  intros Hd. apply comprehension_filter in Hd as [-> _]. split.
  - unfold count_with_status. f_equal. f_equal. apply List.filter_ext.
    intros o. symmetry. apply has_status_status_is.
  - pose proof (List.filter_length_le
                  (fun o => match status_is "delivered" o with Ret c => c | Raise _ => false end)
                  keep). lia.
Qed.

(** X8. A per-booth bundle that has just been derived is consistent: it
    echoes the booth as the request spelled it, every order in it matches
    that booth up to case, [total_orders] is the number of its orders, and
    [delivered_orders] is the number of those with status [delivered], hence
    between 0 and [total_orders]. *)
Theorem booth_bundle_consistent (booth_number : string) (force_refresh : bool)
    (w w' : world) (resp : response) :
  get_orders_by_booth_body booth_number force_refresh w = (Ret resp, w') ->
  exists keep,
    py_getitem (body resp) "booth" = Ret (PStr booth_number)
    /\ py_getitem (body resp) "orders" = Ret (PList keep)
    /\ py_getitem (body resp) "total_orders" = Ret (PInt (Z.of_nat (length keep)))
    /\ py_getitem (body resp) "delivered_orders"
       = Ret (PInt (count_with_status "delivered" keep))
    /\ 0 <= count_with_status "delivered" keep <= Z.of_nat (length keep)
    /\ Forall (fun o => matches_field "booth_number" booth_number o = true) keep.
Proof.
  unfold get_orders_by_booth_body. run.
  destruct (load_orders_from_abacus force_refresh w) as [[v|e] w1]; [| discriminate].
  destruct (py_iter v) as [items|e]; cbn [fst snd]; [| discriminate].
  destruct (comprehension (field_matches "booth_number" booth_number) items)
    as [keep|e] eqn:Hk; cbn [fst snd]; [| discriminate].
  destruct (comprehension (status_is "delivered") keep) as [delivered|e] eqn:Hd;
    cbn [fst snd]; [| discriminate].
  destruct (delivered_count keep delivered Hd) as [Hcount Hbound].
  pose proof (comprehension_kept _ _ _ Hk) as Hkept.
  rewrite Hcount. rewrite Hcount in Hbound.
  destruct force_refresh; cbn; intros [= <- <-]; exists keep; cbn;
    repeat (split; [reflexivity |]); (split; [exact Hbound |]);
    (eapply Forall_impl; [exact Hkept |]); intros o Ho;
    unfold matches_field; rewrite Ho; reflexivity.
Qed.

(** X9. The same for a per-exhibitor bundle that has just been derived, the
    match being on [exhibitor_name], up to case. *)
Theorem exhibitor_bundle_consistent (exhibitor_name : string) (force_refresh : bool)
    (w w' : world) (resp : response) :
  get_orders_by_exhibitor_body exhibitor_name force_refresh w = (Ret resp, w') ->
  exists keep,
    py_getitem (body resp) "exhibitor" = Ret (PStr exhibitor_name)
    /\ py_getitem (body resp) "orders" = Ret (PList keep)
    /\ py_getitem (body resp) "total_orders" = Ret (PInt (Z.of_nat (length keep)))
    /\ py_getitem (body resp) "delivered_orders"
       = Ret (PInt (count_with_status "delivered" keep))
    /\ 0 <= count_with_status "delivered" keep <= Z.of_nat (length keep)
    /\ Forall (fun o => matches_field "exhibitor_name" exhibitor_name o = true) keep
    /\ (forall other, lower other = lower exhibitor_name ->
        Forall (fun o => matches_field "exhibitor_name" other o = true) keep).
Proof.
  unfold get_orders_by_exhibitor_body. run.
  destruct (load_orders_from_abacus force_refresh w) as [[v|e] w1]; [| discriminate].
  destruct (py_iter v) as [items|e]; cbn [fst snd]; [| discriminate].
  destruct (comprehension (field_matches "exhibitor_name" exhibitor_name) items)
    as [keep|e] eqn:Hk; cbn [fst snd]; [| discriminate].
  destruct (comprehension (status_is "delivered") keep) as [delivered|e] eqn:Hd;
    cbn [fst snd]; [| discriminate].
  destruct (delivered_count keep delivered Hd) as [Hcount Hbound].
  pose proof (comprehension_kept _ _ _ Hk) as Hkept.
  rewrite Hcount. rewrite Hcount in Hbound.
  assert (Hm : forall other, lower other = lower exhibitor_name ->
                 Forall (fun o => matches_field "exhibitor_name" other o = true) keep).
  { intros other Hlow. eapply Forall_impl; [exact Hkept |]. intros o Ho.
    unfold matches_field.
    rewrite (field_matches_lower "exhibitor_name" other exhibitor_name o Hlow), Ho.
    reflexivity. }
  destruct force_refresh; cbn; intros [= <- <-]; exists keep; cbn;
    repeat (split; [reflexivity |]); (split; [exact Hbound |]);
    (split; [apply Hm; reflexivity | exact Hm]).
Qed.

(** ** More on the roster *)

Lemma sum_totals_app (d d' : list (pyval * exhibitor_entry)) :
  sum_totals (d ++ d') = sum_totals d + sum_totals d'.
Proof.
  unfold sum_totals. induction d as [| kv d IH]; cbn; [reflexivity | rewrite IH; lia].
Qed.

Lemma sum_totals_update (o : pyval) (k : pyval) (d : list (pyval * exhibitor_entry)) :
  key_in k d = true ->
  sum_totals (dict_update (fun e => bump e [o]) k d) = sum_totals d + 1.
Proof.
  unfold sum_totals. induction d as [| [k' e] d IH]; cbn; [discriminate |].
  destruct (key_eqb k' k); cbn.
  - intros _. lia.
  - intros H. rewrite IH by exact H. lia.
Qed.

Lemma bump_one_ok (k : pyval) (e : exhibitor_entry) (o : pyval) :
  0 <= total_orders e -> 0 <= delivered_orders e <= total_orders e ->
  entry_ok (k, bump e [o]).
Proof.
  unfold entry_ok, bump, count_with_status. cbn.
  destruct (has_status "delivered" o); cbn; lia.
Qed.

Lemma entries_ok_update (o : pyval) (k : pyval) (d : list (pyval * exhibitor_entry)) :
  Forall entry_ok d -> Forall entry_ok (dict_update (fun e => bump e [o]) k d).
Proof.
  induction 1 as [| [k' e] d Hkv Hd IH]; cbn; [constructor |].
  destruct (key_eqb k' k); constructor; auto.
  destruct Hkv as [H1 H2]. cbn in *. apply bump_one_ok; lia.
Qed.

Lemma length_update (f : exhibitor_entry -> exhibitor_entry) (k : pyval)
    (d : list (pyval * exhibitor_entry)) :
  length (dict_update f k d) = length d.
Proof.
  induction d as [| [k' e] d IH]; cbn; [reflexivity |].
  destruct (key_eqb k' k); cbn; [reflexivity | rewrite IH; reflexivity].
Qed.

(** One turn of the loop counts one more order, keeps the summaries sound and
    the keys distinct, and adds one key at most. *)
Lemma roster_step_counts (d : list (pyval * exhibitor_entry)) (o : pyval) :
  hashable (exhibitor_of o) = true ->
  distinct_keys d -> Forall entry_ok d ->
  distinct_keys (roster_step d o)
  /\ Forall entry_ok (roster_step d o)
  /\ sum_totals (roster_step d o) = sum_totals d + 1
  /\ (length (roster_step d o) <= S (length d))%nat.
Proof.
  intros Hh Hd Hok. split; [apply roster_step_distinct; assumption |].
  destruct (key_in (exhibitor_of o) d) eqn:Hin.
  - rewrite roster_step_in by exact Hin.
    split; [apply entries_ok_update, Hok |].
    split; [apply sum_totals_update, Hin |]. rewrite length_update. lia.
  - rewrite roster_step_out by assumption.
    split; [| split].
    + apply Forall_app. split; [exact Hok |]. constructor; [| constructor].
      apply bump_one_ok; cbn; lia.
    + rewrite sum_totals_app. unfold bump. cbn. lia.
    + rewrite length_app. cbn. lia.
Qed.

(** A loop that ends normally ran over orders that carry the fields it reads. *)
Lemma roster_loop_ret_cons (o : pyval) (rest : list pyval)
    (d d' : list (pyval * exhibitor_entry)) :
  roster_loop (o :: rest) d = Ret d' ->
  well_formed_order o /\ roster_loop rest (roster_step d o) = Ret d'.
Proof.
  intros H.
  assert (Hwf : well_formed_order o).
  { cbn [roster_loop] in H. unfold well_formed_order, dict_contains in *.
    destruct (py_getitem o "exhibitor_name") as [n|e]; cbn in H; [| discriminate].
    destruct (py_getitem o "booth_number") as [bn|e]; cbn in H; [| discriminate].
    destruct (hashable n) eqn:Hh; cbn in H; [| discriminate].
    destruct (py_getitem o "status") as [st|e]; cbn in H; [| discriminate].
    eauto 10. }
  split; [exact Hwf |]. rewrite <- (roster_loop_cons o rest d Hwf). exact H.
Qed.

Lemma roster_loop_counts (orders : list pyval) (d d' : list (pyval * exhibitor_entry)) :
  roster_loop orders d = Ret d' ->
  distinct_keys d -> Forall entry_ok d ->
  distinct_keys d' /\ Forall entry_ok d'
  /\ sum_totals d' = sum_totals d + Z.of_nat (length orders)
  /\ (length d' <= length d + length orders)%nat.
Proof.
  revert d. induction orders as [| o rest IH]; intros d Hl Hd Hok.
  - cbn in Hl. injection Hl as <-. cbn. repeat split; auto; lia.
  - apply roster_loop_ret_cons in Hl as [Hwf Hl].
    destruct (roster_step_counts d o (well_formed_hashable o Hwf) Hd Hok)
      as (Hd1 & Hok1 & Hsum1 & Hlen1).
    destruct (IH _ Hl Hd1 Hok1) as (Hd2 & Hok2 & Hsum2 & Hlen2).
    repeat split; auto; cbn [length]; lia.
Qed.

(** X10. Whenever the roster loop ends normally, every order has been counted
    once: the [total_orders] of the summaries add up to the number of orders,
    every summary counts at least one order, and between 0 and [total_orders]
    delivered ones. *)
Theorem roster_counts_every_order (orders : list pyval)
    (d : list (pyval * exhibitor_entry)) :
  roster_loop orders [] = Ret d ->
  sum_totals d = Z.of_nat (length orders) /\ Forall entry_ok d.
Proof.
  intros Hl.
  destruct (roster_loop_counts orders [] d Hl I (Forall_nil_2 _)) as (_ & Hok & Hsum & _).
  split; [cbn in Hsum; lia | exact Hok].
Qed.

(** X11. Whenever the roster loop ends normally, no exhibitor appears twice
    in the roster (keys that Python holds equal, such as [True] and [1], being
    one key), and there are no more summaries than orders. *)
Theorem roster_keys_distinct (orders : list pyval) (d : list (pyval * exhibitor_entry)) :
  roster_loop orders [] = Ret d ->
  distinct_keys d /\ (length d <= length orders)%nat.
Proof.
  intros Hl.
  destruct (roster_loop_counts orders [] d Hl I (Forall_nil_2 _)) as (Hd & _ & _ & Hlen).
  split; [exact Hd | cbn in Hlen; lia].
Qed.

(** ** The footprint of a request *)

Lemma step_ok_same (keys : list string) (w w' : world) :
  CACHE w' = CACHE w -> fetch_calls w' = fetch_calls w -> step_ok keys w w'.
Proof. intros Hc Hf. split; [left; exact Hf | intros k _; rewrite Hc; reflexivity]. Qed.

Lemma step_ok_start (keys : list string) (w w0 w' : world) :
  CACHE w0 = CACHE w -> fetch_calls w0 = fetch_calls w ->
  step_ok keys w0 w' -> step_ok keys w w'.
Proof. unfold step_ok. intros -> ->. auto. Qed.

Lemma step_ok_more (keys keys' : list string) (w w' : world) :
  (forall k, In k keys -> In k keys') -> step_ok keys w w' -> step_ok keys' w w'.
Proof. unfold step_ok. intros Hincl [Hf Hc]. split; [exact Hf |]. auto. Qed.

(** Storing under [key] after a step extends its footprint by [key]. *)
Lemma step_ok_store (keys : list string) (key : string) (x : pyval * Z) (w w1 w2 : world) :
  step_ok keys w w1 ->
  CACHE w2 = <[key := x]> (CACHE w1) -> fetch_calls w2 = fetch_calls w1 ->
  step_ok (keys ++ [key]) w w2.
Proof.
  unfold step_ok. intros [Hf Hc] Hc2 Hf2. rewrite Hf2. split; [exact Hf |].
  intros k Hk. rewrite Hc2. rewrite in_app_iff in Hk. cbn in Hk.
  rewrite lookup_insert_ne by (intros ->; tauto). apply Hc. tauto.
Qed.

Lemma load_orders_step (force_refresh : bool) (w : world) :
  step_ok ["all_orders"] w (snd (load_orders_from_abacus force_refresh w)).
Proof.
  destruct (load_orders_cases force_refresh w)
    as [(_ & data & t & _ & _ & _ & ->) | (w0 & -> & Hc & Hf & _)].
  - apply step_ok_same; reflexivity.
  - apply (step_ok_start _ w w0); [exact Hc | exact Hf |].
    destruct (load_orders_try_spec force_refresh w0) as (lg & -> & _).
    split; [right; reflexivity |]. intros k Hk. cbn in *.
    apply lookup_insert_ne. intros <-. tauto.
Qed.

Lemma booth_body_step (booth_number : string) (force_refresh : bool) (w : world) :
  step_ok ["all_orders"; "booth_" ++ booth_number] w
          (snd (get_orders_by_booth_body booth_number force_refresh w))
  /\ (forall e, fst (get_orders_by_booth_body booth_number force_refresh w) = Raise e ->
      step_ok ["all_orders"] w (snd (get_orders_by_booth_body booth_number force_refresh w))).
Proof.
  unfold get_orders_by_booth_body. run.
  after_load load_orders_step force_refresh w.
  2: { split; [| intros _ _; exact Hinv1].
       eapply step_ok_more; [| exact Hinv1]. cbn. tauto. }
  step_pure;
    try (split; [eapply step_ok_more; [| exact Hinv1]; cbn; tauto | intros _ _; exact Hinv1]).
  destruct force_refresh; cbn [fst snd]; (split; [| discriminate]);
    (eapply (step_ok_store ["all_orders"]); [exact Hinv1 | reflexivity | reflexivity]).
Qed.

Lemma exhibitor_body_step (exhibitor_name : string) (force_refresh : bool) (w : world) :
  step_ok ["all_orders"; "exhibitor_" ++ exhibitor_name] w
          (snd (get_orders_by_exhibitor_body exhibitor_name force_refresh w))
  /\ (forall e, fst (get_orders_by_exhibitor_body exhibitor_name force_refresh w) = Raise e ->
      step_ok ["all_orders"] w
              (snd (get_orders_by_exhibitor_body exhibitor_name force_refresh w))).
Proof.
  unfold get_orders_by_exhibitor_body. run.
  after_load load_orders_step force_refresh w.
  2: { split; [| intros _ _; exact Hinv1].
       eapply step_ok_more; [| exact Hinv1]. cbn. tauto. }
  step_pure;
    try (split; [eapply step_ok_more; [| exact Hinv1]; cbn; tauto | intros _ _; exact Hinv1]).
  destruct force_refresh; cbn [fst snd]; (split; [| discriminate]);
    (eapply (step_ok_store ["all_orders"]); [exact Hinv1 | reflexivity | reflexivity]).
Qed.

Lemma exhibitors_body_step (force_refresh : bool) (w : world) :
  step_ok ["all_orders"; "exhibitors"] w (snd (get_exhibitors_body force_refresh w))
  /\ (forall e, fst (get_exhibitors_body force_refresh w) = Raise e ->
      step_ok ["all_orders"] w (snd (get_exhibitors_body force_refresh w))).
Proof.
  unfold get_exhibitors_body. run.
  after_load load_orders_step force_refresh w.
  2: { split; [| intros _ _; exact Hinv1].
       eapply step_ok_more; [| exact Hinv1]. cbn. tauto. }
  step_pure;
    try (split; [eapply step_ok_more; [| exact Hinv1]; cbn; tauto | intros _ _; exact Hinv1]).
  cbn [fst snd]; (split; [| discriminate]);
    (eapply (step_ok_store ["all_orders"]); [exact Hinv1 | reflexivity | reflexivity]).
Qed.

(** A cached entry point has the footprint of its body; when it answers
    through its [except] clause, the footprint of the body that raised. *)
Lemma cached_try_step (keys : list string) (key : string) (force_refresh : bool)
    (body_ : M response) (except_ : exn -> M response) (w : world) :
  (forall w0, step_ok keys w0 (snd (body_ w0))
              /\ (forall e, fst (body_ w0) = Raise e ->
                            step_ok ["all_orders"] w0 (snd (body_ w0)))) ->
  (forall e w0, exists resp, fst (except_ e w0) = Ret resp /\ status resp = 500
                             /\ CACHE (snd (except_ e w0)) = CACHE w0
                             /\ fetch_calls (snd (except_ e w0)) = fetch_calls w0) ->
  (forall w0 resp, fst (body_ w0) = Ret resp -> status resp = 200) ->
  let m := if negb force_refresh then
             cached_data <-- get_from_cache key true ;;
             if truthy cached_data then ret (jsonify cached_data)
             else try_except body_ except_
           else try_except body_ except_ in
  step_ok keys w (snd (m w))
  /\ exists resp, fst (m w) = Ret resp
       /\ (status resp = 200
           \/ (status resp = 500 /\ step_ok ["all_orders"] w (snd (m w)))).
Proof.
  intros Hbody Hexc H200 m.
  destruct (cached_or_derive key force_refresh jsonify (try_except body_ except_) w)
    as [(_ & data & t & _ & _ & _ & Hm) | (w0 & Hm & Hc & Hf & _)];
    fold m in Hm; rewrite Hm.
  - cbn. split; [apply step_ok_same; reflexivity |].
    eexists. split; [reflexivity |]. left. reflexivity.
  - unfold try_except. destruct (Hbody w0) as [Hstep Hraise].
    pose proof (H200 w0) as H200'.
    destruct (body_ w0) as [[r|e] w1]; cbn [fst snd] in *.
    + split; [apply (step_ok_start _ w w0); assumption |].
      exists r. split; [reflexivity |]. left. apply H200'. reflexivity.
    + destruct (Hexc e w1) as (resp & He & Hs & Hce & Hfe).
      assert (Hkeep : forall ks, step_ok ks w0 w1 -> step_ok ks w (snd (except_ e w1))).
      { intros ks [Hf1 Hc1]. apply (step_ok_start _ w w0); [exact Hc | exact Hf |].
        split; [rewrite Hfe; exact Hf1 | intros k Hk; rewrite Hce; apply Hc1, Hk]. }
      split; [apply Hkeep, Hstep |].
      exists resp. split; [exact He |]. right. split; [exact Hs |].
      apply Hkeep, (Hraise e). reflexivity.
Qed.

Lemma booth_route_step (booth_number : string) (arg : option string) (w : world) :
  step_ok ["all_orders"; "booth_" ++ booth_number] w
    (snd (get_orders_by_booth booth_number arg w))
  /\ exists resp, fst (get_orders_by_booth booth_number arg w) = Ret resp
       /\ (status resp = 200
           \/ (status resp = 500
               /\ step_ok ["all_orders"] w (snd (get_orders_by_booth booth_number arg w)))).
Proof.
  apply (cached_try_step _ ("booth_" ++ booth_number)).
  - intros w0. apply booth_body_step.
  - intros e w0. unfold get_orders_by_booth_except. run. eexists. repeat split.
  - intros w0 resp Hr.
    destruct (get_orders_by_booth_body booth_number (request_force_refresh arg) w0)
      as [o w1] eqn:Hb. cbn in Hr. subst o. apply booth_body_ret in Hb. tauto.
Qed.

Lemma exhibitor_route_step (exhibitor_name : string) (arg : option string) (w : world) :
  step_ok ["all_orders"; "exhibitor_" ++ exhibitor_name] w
    (snd (get_orders_by_exhibitor exhibitor_name arg w))
  /\ exists resp, fst (get_orders_by_exhibitor exhibitor_name arg w) = Ret resp
       /\ (status resp = 200
           \/ (status resp = 500
               /\ step_ok ["all_orders"] w
                          (snd (get_orders_by_exhibitor exhibitor_name arg w)))).
Proof.
  apply (cached_try_step _ ("exhibitor_" ++ exhibitor_name)).
  - intros w0. apply exhibitor_body_step.
  - intros e w0. unfold get_orders_by_exhibitor_except. run. eexists. repeat split.
  - intros w0 resp Hr.
    destruct (get_orders_by_exhibitor_body exhibitor_name (request_force_refresh arg) w0)
      as [o w1] eqn:Hb. cbn in Hr. subst o. eapply exhibitor_body_ret, Hb.
Qed.

Lemma exhibitors_route_step (arg : option string) (w : world) :
  step_ok ["all_orders"; "exhibitors"] w (snd (get_exhibitors arg w))
  /\ exists resp, fst (get_exhibitors arg w) = Ret resp
       /\ (status resp = 200
           \/ (status resp = 500
               /\ step_ok ["all_orders"] w (snd (get_exhibitors arg w)))).
Proof.
  apply (cached_try_step _ "exhibitors").
  - intros w0. apply exhibitors_body_step.
  - intros e w0. unfold get_exhibitors_except. run. eexists. repeat split.
  - intros w0 resp Hr.
    destruct (get_exhibitors_body (request_force_refresh arg) w0) as [o w1] eqn:Hb.
    cbn in Hr. subst o. eapply exhibitors_body_ret, Hb.
Qed.

Lemma stats_step (arg : option string) (w : world) :
  step_ok ["all_orders"] w (snd (get_stats arg w)).
Proof.
  unfold get_stats. run.
  after_load load_orders_step (request_force_refresh arg) w; [| exact Hinv1].
  step_pure; exact Hinv1.
Qed.

Lemma handle_step (r : request) (w : world) :
  r <> PostClearCache -> step_ok (keys_of r) w (snd (handle r w)).
Proof.
  intros Hr. destruct r; cbn [handle keys_of].
  - unfold health_check. run. apply step_ok_same; reflexivity.
  - unfold abacus_status. run. apply step_ok_same; reflexivity.
  - unfold get_all_orders. run.
    after_load load_orders_step (request_force_refresh arg) w; exact Hinv1.
  - apply booth_route_step.
  - apply exhibitor_route_step.
  - apply exhibitors_route_step.
  - apply stats_step.
  - congruence.
Qed.

(** X12. No request calls the upstream more than once. *)
Theorem at_most_one_upstream_call (r : request) (w : world) :
  fetch_calls (snd (handle r w)) = fetch_calls w
  \/ fetch_calls (snd (handle r w)) = S (fetch_calls w).
Proof.
  assert (Hclear : r = PostClearCache \/ r <> PostClearCache)
    by (destruct r; (left; reflexivity) || (right; discriminate)).
  destruct Hclear as [-> | Hr].
  - left. cbn. unfold clear_cache. run. reflexivity.
  - apply (handle_step r w Hr).
Qed.

(** X13. A request other than the clearing of the cache writes under its own
    keys only: ["all_orders"], and for the filtered routes the key made of
    the booth or the exhibitor exactly as the request spells it, or
    ["exhibitors"].  Every other entry is left as it was; in particular the
    entry of the same booth in another spelling. *)
Theorem request_footprint (r : request) (w : world) (k : string) :
  r <> PostClearCache -> ~ In k (keys_of r) ->
  CACHE (snd (handle r w)) !! k = CACHE w !! k.
Proof. intros Hr Hk. apply (handle_step r w Hr), Hk. Qed.

(** X15. A derivation that fails is not cached: when the iteration, the
    filter or the count of the per-booth route raises, the route answers 500
    with the zero-valued bundle carrying the text of the exception, and the
    cache is exactly what [load_orders_from_abacus] left: nothing has been
    stored under the booth key, so a bundle stored there before is still
    there and the next request derives again. *)
Theorem failure_is_not_cached (booth_number : string) (force_refresh : bool)
    (w w1 : world) (v : pyval) (e : exn) :
  load_orders_from_abacus force_refresh w = (Ret v, w1) ->
  (items <~ py_iter v ;;
   keep <~ comprehension (field_matches "booth_number" booth_number) items ;;
   delivered <~ comprehension (status_is "delivered") keep ;;
   Ret delivered) = Raise e ->
  try_except (get_orders_by_booth_body booth_number force_refresh)
             (get_orders_by_booth_except booth_number) w
  = (Ret (mkResponse (failure_bundle "booth" booth_number (clock (now_calls w1)) e) 500),
     mkWorld (CACHE w1) (S (now_calls w1)) (fetch_calls w1)
             (LogBoothError booth_number e :: log w1)).
Proof.
  intros Hl Hsteps.
  unfold get_orders_by_booth_body, get_orders_by_booth_except, failure_bundle. run.
  rewrite Hl. cbn [fst snd].
  destruct (py_iter v) as [items|e0]; cbn [obind fst snd] in *;
    [| injection Hsteps as ->; reflexivity].
  destruct (comprehension (field_matches "booth_number" booth_number) items) as [keep|e0];
    cbn [obind fst snd] in *; [| injection Hsteps as ->; reflexivity].
  destruct (comprehension (status_is "delivered") keep) as [delivered|e0];
    cbn [obind fst snd] in *; [discriminate | injection Hsteps as ->; reflexivity].
Qed.

Lemma getitem_truthy (v x : pyval) (k : string) :
  py_getitem v k = Ret x -> truthy v = true.
Proof.
  destruct v as [|b|z|s0|l|d]; cbn; try discriminate.
  destruct d; [discriminate | reflexivity].
Qed.

(** X16. A per-booth answer with status 200 is the bundle the cache now holds
    under the booth key; and while that entry is fresh, the same request
    without forced refresh gets the very same answer, with no call to the
    upstream and no change to the cache. *)
Theorem booth_answer_is_reused (booth_number : string) (arg : option string) (w : world)
    (resp : response) :
  fst (get_orders_by_booth booth_number arg w) = Ret resp ->
  status resp = 200 ->
  let w' := snd (get_orders_by_booth booth_number arg w) in
  exists t,
    CACHE w' !! ("booth_" ++ booth_number) = Some (body resp, t)
    /\ (fresh (clock (now_calls w')) t ->
        fst (get_orders_by_booth booth_number None w') = Ret resp
        /\ fetch_calls (snd (get_orders_by_booth booth_number None w')) = fetch_calls w'
        /\ CACHE (snd (get_orders_by_booth booth_number None w')) = CACHE w').
Proof.
  intros Hresp H200 w'.
  assert (Hstored : exists t, CACHE w' !! ("booth_" ++ booth_number) = Some (body resp, t)
                              /\ truthy (body resp) = true).
  { subst w'. revert Hresp. unfold get_orders_by_booth. cbv zeta.
    pose proof (cached_or_derive ("booth_" ++ booth_number) (request_force_refresh arg)
                  jsonify
                  (try_except (get_orders_by_booth_body booth_number (request_force_refresh arg))
                              (get_orders_by_booth_except booth_number)) w) as H.
    cbv zeta in H.
    destruct H as [(_ & data & t & Hc & _ & Ht & ->) | (w0 & -> & _)]; cbn [fst snd].
    - intros [= <-]. exists t. auto.
    - unfold try_except.
      destruct (get_orders_by_booth_body booth_number (request_force_refresh arg) w0)
        as [[r|e] w1] eqn:Hb; cbn [fst snd].
      + intros [= ->]. apply booth_body_ret in Hb as (_ & Hflag & t & Hc).
        exists t. split; [exact Hc | exact (getitem_truthy _ _ _ Hflag)].
      + unfold get_orders_by_booth_except. run. intros [= <-]. discriminate. }
  destruct Hstored as (t & Hc & Ht). exists t. split; [exact Hc |].
  intros Hfresh. clearbody w'.
  unfold get_orders_by_booth. cbv zeta.
  change (request_force_refresh None) with false. cbn [negb]. run.
  rewrite Hc. cbn. unfold fresh in Hfresh. apply Z.ltb_lt in Hfresh. rewrite Hfresh. cbn.
  rewrite Ht. cbn. destruct resp as [bd st]. cbn in *. subst st. auto.
Qed.

End App.

(** * The statements on explicit inputs *)

(** A forced load against a dead upstream, from the empty cache. *)
Lemma load_orders_never_propagates_witness :
  fetch_calls (snd (load_orders_from_abacus tick_clock dead_source true initial_world))
  = S (fetch_calls initial_world)
  /\ fetch_failed (dead_source (fetch_calls initial_world))
  /\ fst (load_orders_from_abacus tick_clock dead_source true initial_world)
     = Ret get_mock_orders.
Proof.
  assert (H1 : fetch_calls (snd (load_orders_from_abacus tick_clock dead_source true
                                   initial_world)) = S (fetch_calls initial_world))
    by reflexivity.
  assert (H2 : fetch_failed (dead_source (fetch_calls initial_world))) by exact I.
  split; [exact H1 |]. split; [exact H2 |].
  exact (proj1 (proj2 (load_orders_never_propagates tick_clock dead_source true
                         initial_world) H1 H2)).
Defined.

(** A value read back one second, and three minutes, after it was stored. *)
Lemma get_from_cache_contract_witness :
  (fresh (tick_clock 1) (tick_clock 0)
   /\ fst (get_from_cache tick_clock "k" true
             (snd (set_cache tick_clock "k" (PInt 7) initial_world))) = Ret (PInt 7))
  /\ (timedelta_seconds 120 <= slow_clock 1 - slow_clock 0
      /\ fst (get_from_cache slow_clock "k" true
                (snd (set_cache slow_clock "k" (PInt 7) initial_world))) = Ret PNone).
Proof.
  assert (H1 : fresh (tick_clock 1) (tick_clock 0)) by (vm_compute; reflexivity).
  assert (H2 : timedelta_seconds 120 <= slow_clock 1 - slow_clock 0)
    by (vm_compute; discriminate).
  split; split; try assumption.
  - exact (proj1 (proj2 (get_from_cache_contract tick_clock "k" (PInt 7) initial_world)) H1).
  - exact (proj1 (proj2 (proj2 (get_from_cache_contract slow_clock "k" (PInt 7)
                                  initial_world))) H2).
Defined.

(** C3 fails as stated: a forced per-booth request followed, one second
    later, by the same request without the flag; the second answer comes from
    the cache and still says that the refresh was forced. *)
Lemma booth_flag_counterexample :
  let w1 := snd (get_orders_by_booth tick_clock dead_source plain_isoformat
                   "A-245" (Some "true") initial_world) in
  let second := get_orders_by_booth tick_clock dead_source plain_isoformat
                  "A-245" None w1 in
  request_force_refresh None = false
  /\ fetch_calls (snd second) = fetch_calls w1
  /\ status (answer_of (fst second)) = 200
  /\ py_getitem (body (answer_of (fst second))) "force_refreshed" = Ret (PBool true).
Proof. vm_compute. repeat split. Qed.

(** A forced per-booth request from the empty cache derives its bundle. *)
Lemma booth_bundle_flag_witness :
  let first := get_orders_by_booth tick_clock dead_source plain_isoformat
                 "A-245" (Some "true") initial_world in
  fst first = Ret (answer_of (fst first))
  /\ status (answer_of (fst first)) = 200
  /\ py_getitem (body (answer_of (fst first))) "force_refreshed"
     = Ret (PBool (request_force_refresh (Some "true"))).
Proof.
  intros first.
  assert (H1 : fst first = Ret (answer_of (fst first))) by (vm_compute; reflexivity).
  assert (H2 : status (answer_of (fst first)) = 200) by (vm_compute; reflexivity).
  split; [exact H1 |]. split; [exact H2 |].
  destruct (booth_bundle_flag tick_clock dead_source plain_isoformat "A-245" (Some "true")
              initial_world (answer_of (fst first)) H1 H2) as [[Hfalse _] | [Hflag _]].
  - vm_compute in Hfalse. discriminate Hfalse.
  - exact Hflag.
Defined.

(** C4 fails as stated: when the only record of the upstream lacks its
    fields, the roster route answers 500 with the bare empty list, in which
    there is no error text to read; the per-booth route, on the same input,
    answers 500 with a bundle that has one. *)
Lemma roster_failure_counterexample :
  fst (get_exhibitors tick_clock ragged_source None initial_world)
  = Ret (mkResponse (PList []) 500)
  /\ py_getitem (PList []) "error"
     = Raise (TypeError "list indices must be integers or slices, not str")
  /\ py_getitem (body (answer_of (fst (get_orders_by_booth tick_clock ragged_source
                                         plain_isoformat "A-245" None initial_world))))
                "error"
     = Ret (PStr "'booth_number'").
Proof. vm_compute. repeat split. Qed.

(** A record without [booth_number] makes the per-booth derivation raise. *)
Lemma derivation_errors_caught_witness :
  fst (get_orders_by_booth_body tick_clock ragged_source plain_isoformat "A-245"
         (request_force_refresh (Some "true")) initial_world)
  = Raise (KeyError "booth_number")
  /\ exists now,
      fst (try_except (get_orders_by_booth_body tick_clock ragged_source plain_isoformat
                         "A-245" (request_force_refresh (Some "true")))
                      (get_orders_by_booth_except tick_clock plain_isoformat "A-245")
                      initial_world)
      = Ret (mkResponse (failure_bundle plain_isoformat "booth" "A-245" now
                           (KeyError "booth_number")) 500).
Proof.
  assert (H : fst (get_orders_by_booth_body tick_clock ragged_source plain_isoformat "A-245"
                     (request_force_refresh (Some "true")) initial_world)
              = Raise (KeyError "booth_number")) by (vm_compute; reflexivity).
  split; [exact H |].
  exact (proj1 (proj2 (proj2 (proj2 (derivation_errors_caught tick_clock ragged_source
           plain_isoformat "A-245" (Some "true") initial_world)))) _ H).
Defined.

(** A forced per-booth request while both cache entries are two seconds old
    at most. *)
Lemma force_refresh_reaches_upstream_witness :
  let w := snd (get_orders_by_booth tick_clock live_source plain_isoformat
                  "a-245" None initial_world) in
  let refreshed := get_orders_by_booth tick_clock live_source plain_isoformat
                     "a-245" (Some "true") w in
  request_force_refresh (Some "true") = true
  /\ (exists x, CACHE w !! "booth_a-245" = Some (x, tick_clock 2))
  /\ (exists x, CACHE w !! "all_orders" = Some (x, tick_clock 0))
  /\ fetch_calls (snd refreshed) = S (fetch_calls w).
Proof.
  intros w refreshed.
  assert (H : request_force_refresh (Some "true") = true) by reflexivity.
  split; [exact H |].
  split; [vm_compute; eexists; reflexivity |].
  split; [vm_compute; eexists; reflexivity |].
  exact (proj1 (force_refresh_reaches_upstream tick_clock live_source plain_isoformat
                  "a-245" (Some "true") w H)).
Defined.

(** Two loads after a statistics request, the upstream being down. *)
Lemma idempotent_fallback_witness :
  let w := snd (handle tick_clock dead_source plain_isoformat (GetStats None)
                  initial_world) in
  always_fails dead_source
  /\ reachable tick_clock dead_source plain_isoformat w
  /\ fst (load_orders_from_abacus tick_clock dead_source false w) = Ret get_mock_orders
  /\ fst (load_orders_from_abacus tick_clock dead_source false
            (snd (load_orders_from_abacus tick_clock dead_source false w)))
     = Ret get_mock_orders.
Proof.
  intros w.
  assert (H1 : always_fails dead_source) by (intros n; exact I).
  assert (H2 : reachable tick_clock dead_source plain_isoformat w)
    by (apply reachable_step, reachable_init).
  split; [exact H1 |]. split; [exact H2 |].
  pose proof (idempotent_fallback tick_clock dead_source plain_isoformat w H1 H2) as H.
  cbv zeta in H. split; [exact (proj1 H) | exact (proj1 (proj2 H))].
Defined.

(** A forced load after the order list has been requested once. *)
Lemma all_orders_never_empty_witness :
  let w := snd (handle tick_clock live_source plain_isoformat (GetOrders None)
                  initial_world) in
  returns_sequences live_source
  /\ reachable tick_clock live_source plain_isoformat w
  /\ exists l, fst (load_orders_from_abacus tick_clock live_source true w) = Ret (PList l)
               /\ l <> [].
Proof.
  intros w.
  assert (H1 : returns_sequences live_source)
    by (intros n v [= <-]; eexists; reflexivity).
  assert (H2 : reachable tick_clock live_source plain_isoformat w)
    by (apply reachable_step, reachable_init).
  split; [exact H1 |]. split; [exact H2 |].
  destruct (proj2 (all_orders_never_empty tick_clock live_source plain_isoformat w H1 H2) true)
    as (l & Hl & Hne & _).
  exists l. split; [exact Hl | exact Hne].
Defined.


(** C8 fails as stated: the four mock orders name three exhibitors, and the
    roster the route answers with has three entries. *)
Lemma mock_roster_counterexample :
  fst (load_orders_from_abacus tick_clock dead_source false initial_world)
  = Ret get_mock_orders
  /\ (resp <~ fst (get_exhibitors tick_clock dead_source None initial_world) ;;
      py_len (body resp)) = Ret 3
  /\ (resp <~ fst (get_exhibitors tick_clock dead_source None initial_world) ;;
      py_len (body resp)) <> Ret 2.
Proof. vm_compute. repeat split. discriminate. Qed.

(** The roster of the mock orders. *)
Lemma roster_groups_by_exhibitor_witness :
  let orders := match get_mock_orders with PList l => l | _ => [] end in
  let fr := request_force_refresh None in
  let w1 := snd (load_orders_from_abacus tick_clock dead_source fr initial_world) in
  Forall well_formed_order orders
  /\ load_orders_from_abacus tick_clock dead_source fr initial_world
     = (Ret (PList orders), w1)
  /\ fst (get_exhibitors_body tick_clock dead_source fr initial_world)
     = Ret (jsonify (PList (roster_spec orders)))
  /\ length (roster_spec orders) = 3%nat.
Proof.
  intros orders fr w1.
  assert (H1 : Forall well_formed_order orders).
  { repeat constructor; eexists; try reflexivity; split; reflexivity. }
  assert (H2 : load_orders_from_abacus tick_clock dead_source fr initial_world
               = (Ret (PList orders), w1)) by reflexivity.
  split; [exact H1 |]. split; [exact H2 |].
  split; [| reflexivity].
  exact (proj2 (proj1 (roster_groups_by_exhibitor tick_clock dead_source orders None
                         initial_world w1) H1) H2).
Defined.

(** The statistics of a one-record upstream answer. *)
Lemma stats_counts_witness :
  let l := [PDict [("id", PStr "ORD-1"); ("booth_number", PStr "a-245");
                   ("exhibitor_name", PStr "Acme"); ("status", PStr "delivered")]] in
  let w1 := snd (load_orders_from_abacus tick_clock live_source
                   (request_force_refresh None) initial_world) in
  load_orders_from_abacus tick_clock live_source (request_force_refresh None) initial_world
  = (Ret (PList l), w1)
  /\ Forall (fun o => exists s, py_getitem o "status" = Ret s) l
  /\ fst (get_stats tick_clock live_source plain_isoformat None initial_world)
     = Ret (jsonify (PDict [("total_orders", PInt 1);
                            ("delivered", PInt 1);
                            ("in_process", PInt 0);
                            ("in_route", PInt 0);
                            ("out_for_delivery", PInt 0);
                            ("cancelled", PInt 0);
                            ("last_updated", PStr (plain_isoformat (tick_clock 1)))])).
Proof.
  intros l w1.
  assert (H1 : load_orders_from_abacus tick_clock live_source (request_force_refresh None)
                 initial_world = (Ret (PList l), w1)) by reflexivity.
  assert (H2 : Forall (fun o => exists s, py_getitem o "status" = Ret s) l).
  { repeat constructor. eexists. reflexivity. }
  split; [exact H1 |]. split; [exact H2 |].
  exact (proj1 (stats_counts tick_clock live_source plain_isoformat None initial_world w1 l)
           H1 H2).
Defined.

(** * The further statements on explicit inputs *)

(** A number from the upstream is replaced by the mock orders. *)
Lemma upstream_answer_or_mock_witness :
  number_source (fetch_calls initial_world) = Ret (PInt 5)
  /\ fst (load_orders_from_abacus tick_clock number_source true initial_world)
     = Ret get_mock_orders.
Proof.
  assert (H : number_source (fetch_calls initial_world) = Ret (PInt 5)) by reflexivity.
  split; [exact H |].
  exact (proj1 (upstream_answer_or_mock tick_clock number_source initial_world (PInt 5) H)).
Defined.

(** A forced load and an unforced one, one second later. *)
Lemma load_then_reload_witness :
  let first := load_orders_from_abacus tick_clock live_source true initial_world in
  fresh (tick_clock (now_calls (snd first))) (tick_clock 0)
  /\ fst (load_orders_from_abacus tick_clock live_source false (snd first)) = fst first
  /\ fetch_calls (snd (load_orders_from_abacus tick_clock live_source false (snd first)))
     = 1%nat.
Proof.
  intros first.
  assert (Hf : fresh (tick_clock (now_calls (snd first))) (tick_clock 0))
    by (vm_compute; reflexivity).
  split; [exact Hf |].
  destruct (load_then_reload tick_clock live_source true initial_world)
    as (v & t & Hv & Hc & Hre).
  fold first in Hv, Hc, Hre.
  assert (Ht : t = tick_clock 0) by (vm_compute in Hc; injection Hc as _ <-; reflexivity).
  subst t. destruct (Hre Hf) as (H1 & H2 & _).
  split; [rewrite H1, Hv; reflexivity | rewrite H2; reflexivity].
Defined.

(** An unforced load three minutes after the entry was stored. *)
Lemma stale_entry_is_replaced_witness :
  let w := snd (load_orders_from_abacus slow_clock dead_source true initial_world) in
  CACHE w !! "all_orders" = Some (get_mock_orders, slow_clock 0)
  /\ timedelta_seconds CACHE_DURATION <= slow_clock (now_calls w) - slow_clock 0
  /\ fetch_calls (snd (load_orders_from_abacus slow_clock dead_source false w))
     = S (fetch_calls w).
Proof.
  intros w.
  assert (H1 : CACHE w !! "all_orders" = Some (get_mock_orders, slow_clock 0))
    by (vm_compute; reflexivity).
  assert (H2 : timedelta_seconds CACHE_DURATION <= slow_clock (now_calls w) - slow_clock 0)
    by (vm_compute; discriminate).
  split; [exact H1 |]. split; [exact H2 |].
  exact (proj1 (proj2 (proj1 (stale_entry_is_replaced slow_clock dead_source w) _ _ H1 H2))).
Defined.

(** A spelling in mixed case. *)
Lemma force_refresh_spellings_witness :
  (("T" = "t" \/ "T" = "T") /\ ("r" = "r" \/ "r" = "R")
   /\ ("U" = "u" \/ "U" = "U") /\ ("e" = "e" \/ "e" = "E"))%char
  /\ request_force_refresh (Some "TrUe") = true.
Proof.
  assert (H : (("T" = "t" \/ "T" = "T") /\ ("r" = "r" \/ "r" = "R")
               /\ ("U" = "u" \/ "U" = "U") /\ ("e" = "e" \/ "e" = "E"))%char)
    by (repeat split; auto).
  split; [exact H |].
  apply (proj2 (force_refresh_spellings (Some "TrUe"))).
  exists "T"%char, "r"%char, "U"%char, "e"%char. split; [reflexivity | exact H].
Defined.

(** The second record of the upstream has no status. *)
Lemma stats_lets_exceptions_through_witness :
  let l := load_orders_from_abacus tick_clock mixed_source
             (request_force_refresh None) initial_world in
  l = (Ret (PList ([PDict [("id", PStr "ORD-1"); ("status", PStr "delivered")]]
                   ++ PDict [("id", PStr "ORD-2")] :: [])), snd l)
  /\ py_getitem (PDict [("id", PStr "ORD-2")]) "status" = Raise (KeyError "status")
  /\ fst (get_stats tick_clock mixed_source plain_isoformat None initial_world)
     = Raise (KeyError "status").
Proof.
  intros l.
  assert (H1 : l = (Ret (PList ([PDict [("id", PStr "ORD-1"); ("status", PStr "delivered")]]
                                ++ PDict [("id", PStr "ORD-2")] :: [])), snd l))
    by reflexivity.
  assert (H2 : py_getitem (PDict [("id", PStr "ORD-2")]) "status"
               = Raise (KeyError "status")) by reflexivity.
  split; [exact H1 |]. split; [exact H2 |].
  rewrite (stats_lets_exceptions_through tick_clock mixed_source plain_isoformat None
             initial_world (snd l) _ _ _ _ H1
             ltac:(repeat constructor; eexists; reflexivity) H2).
  reflexivity.
Defined.

(** The statistics of the mock orders. *)
Lemma stats_counts_bounded_witness :
  let r := get_stats tick_clock dead_source plain_isoformat None initial_world in
  fst r = Ret (answer_of (fst r))
  /\ exists total delivered in_process in_route out_for_delivery cancelled,
      py_getitem (body (answer_of (fst r))) "total_orders" = Ret (PInt total)
      /\ py_getitem (body (answer_of (fst r))) "delivered" = Ret (PInt delivered)
      /\ py_getitem (body (answer_of (fst r))) "in_process" = Ret (PInt in_process)
      /\ py_getitem (body (answer_of (fst r))) "in_route" = Ret (PInt in_route)
      /\ py_getitem (body (answer_of (fst r))) "out_for_delivery"
         = Ret (PInt out_for_delivery)
      /\ py_getitem (body (answer_of (fst r))) "cancelled" = Ret (PInt cancelled)
      /\ delivered + in_process + in_route + out_for_delivery + cancelled <= total.
Proof.
  intros r.
  assert (H : fst r = Ret (answer_of (fst r))) by reflexivity.
  split; [exact H |].
  destruct (stats_counts_bounded tick_clock dead_source plain_isoformat None initial_world
              (answer_of (fst r)) H)
    as (total & n1 & n2 & n3 & n4 & n5 & H0 & H1 & H2 & H3 & H4 & H5 & _ & _ & _ & _ & _ & Hs).
  exists total, n1, n2, n3, n4, n5. repeat (split; [assumption |]). exact Hs.
Defined.

(** The bundle of booth [a-245] over the mock orders. *)
Lemma booth_bundle_consistent_witness :
  let r := get_orders_by_booth_body tick_clock dead_source plain_isoformat "a-245" false
             initial_world in
  r = (Ret (answer_of (fst r)), snd r)
  /\ py_getitem (body (answer_of (fst r))) "booth" = Ret (PStr "a-245")
  /\ py_getitem (body (answer_of (fst r))) "total_orders" = Ret (PInt 2).
Proof.
  intros r.
  assert (H : r = (Ret (answer_of (fst r)), snd r)) by reflexivity.
  split; [exact H |].
  destruct (booth_bundle_consistent tick_clock dead_source plain_isoformat "a-245" false
              initial_world (snd r) (answer_of (fst r)) H)
    as (keep & Hb & Ho & Ht & _).
  split; [exact Hb |].
  assert (Hk : keep = take 2 (match get_mock_orders with PList l => l | _ => [] end))
    by (vm_compute in Ho; injection Ho as <-; reflexivity).
  rewrite Ht, Hk. reflexivity.
Defined.

(** The bundle of exhibitor [techflow innovations] over the mock orders. *)
Lemma exhibitor_bundle_consistent_witness :
  let r := get_orders_by_exhibitor_body tick_clock dead_source plain_isoformat
             "techflow innovations" true initial_world in
  r = (Ret (answer_of (fst r)), snd r)
  /\ lower "TechFlow Innovations" = lower "techflow innovations"
  /\ py_getitem (body (answer_of (fst r))) "exhibitor" = Ret (PStr "techflow innovations")
  /\ py_getitem (body (answer_of (fst r))) "total_orders" = Ret (PInt 2).
Proof.
  intros r.
  assert (H : r = (Ret (answer_of (fst r)), snd r)) by reflexivity.
  split; [exact H |]. split; [reflexivity |].
  destruct (exhibitor_bundle_consistent tick_clock dead_source plain_isoformat
              "techflow innovations" true initial_world (snd r) (answer_of (fst r)) H)
    as (keep & Hb & Ho & Ht & _).
  split; [exact Hb |].
  assert (Hk : keep = take 2 (match get_mock_orders with PList l => l | _ => [] end))
    by (vm_compute in Ho; injection Ho as <-; reflexivity).
  rewrite Ht, Hk. reflexivity.
Defined.

(** The roster loop over the mock orders. *)
Lemma roster_counts_every_order_witness :
  let orders := match get_mock_orders with PList l => l | _ => [] end in
  let d := match roster_loop orders [] with Ret d => d | Raise _ => [] end in
  roster_loop orders [] = Ret d /\ sum_totals d = 4.
Proof.
  intros orders d.
  assert (H : roster_loop orders [] = Ret d) by reflexivity.
  split; [exact H |].
  exact (proj1 (roster_counts_every_order orders d H)).
Defined.

Lemma roster_keys_distinct_witness :
  let orders := match get_mock_orders with PList l => l | _ => [] end in
  let d := match roster_loop orders [] with Ret d => d | Raise _ => [] end in
  roster_loop orders [] = Ret d /\ distinct_keys d.
Proof.
  intros orders d.
  assert (H : roster_loop orders [] = Ret d) by reflexivity.
  split; [exact H |].
  exact (proj1 (roster_keys_distinct orders d H)).
Defined.

(** A forced request for booth [A-245] leaves the entry of [a-245] alone. *)
Lemma request_footprint_witness :
  let w := snd (get_orders_by_booth tick_clock live_source plain_isoformat "a-245" None
                  initial_world) in
  let r := GetOrdersByBooth "A-245" (Some "true") in
  r <> PostClearCache
  /\ ~ In "booth_a-245" (keys_of r)
  /\ (exists x, CACHE w !! "booth_a-245" = Some x)
  /\ CACHE (snd (handle tick_clock live_source plain_isoformat r w)) !! "booth_a-245"
     = CACHE w !! "booth_a-245".
Proof.
  intros w r.
  assert (H1 : r <> PostClearCache) by discriminate.
  assert (H2 : ~ In "booth_a-245" (keys_of r)).
  { cbn. intros [H | [H | []]]; discriminate H. }
  split; [exact H1 |]. split; [exact H2 |].
  split; [vm_compute; eexists; reflexivity |].
  exact (request_footprint tick_clock live_source plain_isoformat r w "booth_a-245" H1 H2).
Defined.

(** A good bundle is cached for booth [a-245]; then the upstream turns ragged
    and a forced request fails: the good bundle is still there. *)
Lemma failure_is_not_cached_witness :
  let w := snd (get_orders_by_booth tick_clock flaky_source plain_isoformat "a-245" None
                  initial_world) in
  let l := load_orders_from_abacus tick_clock flaky_source true w in
  let failed := try_except
                  (get_orders_by_booth_body tick_clock flaky_source plain_isoformat
                     "a-245" true)
                  (get_orders_by_booth_except tick_clock plain_isoformat "a-245") w in
  l = (Ret (PList [PDict [("id", PStr "ORD-1")]]), snd l)
  /\ (items <~ py_iter (PList [PDict [("id", PStr "ORD-1")]]) ;;
      keep <~ comprehension (field_matches "booth_number" "a-245") items ;;
      delivered <~ comprehension (status_is "delivered") keep ;;
      Ret delivered) = Raise (KeyError "booth_number")
  /\ status (answer_of (fst failed)) = 500
  /\ (exists x, CACHE w !! "booth_a-245" = Some x)
  /\ CACHE (snd failed) !! "booth_a-245" = CACHE w !! "booth_a-245".
Proof.
  intros w l failed.
  assert (H1 : l = (Ret (PList [PDict [("id", PStr "ORD-1")]]), snd l)) by reflexivity.
  assert (H2 : (items <~ py_iter (PList [PDict [("id", PStr "ORD-1")]]) ;;
                keep <~ comprehension (field_matches "booth_number" "a-245") items ;;
                delivered <~ comprehension (status_is "delivered") keep ;;
                Ret delivered) = Raise (KeyError "booth_number")) by reflexivity.
  split; [exact H1 |]. split; [exact H2 |].
  pose proof (failure_is_not_cached tick_clock flaky_source plain_isoformat "a-245" true
                w (snd l) _ _ H1 H2) as H.
  fold failed in H. rewrite H. cbn [fst snd answer_of status CACHE].
  split; [reflexivity |]. split; vm_compute; [eexists |]; reflexivity.
Defined.

(** The same request, forced and then not, one second apart. *)
Lemma booth_answer_is_reused_witness :
  let first := get_orders_by_booth tick_clock live_source plain_isoformat "a-245"
                 (Some "true") initial_world in
  fst first = Ret (answer_of (fst first))
  /\ status (answer_of (fst first)) = 200
  /\ fresh (tick_clock (now_calls (snd first))) (tick_clock 2)
  /\ fst (get_orders_by_booth tick_clock live_source plain_isoformat "a-245" None
            (snd first)) = fst first.
Proof.
  intros first.
  assert (H1 : fst first = Ret (answer_of (fst first))) by reflexivity.
  assert (H2 : status (answer_of (fst first)) = 200) by reflexivity.
  assert (H3 : fresh (tick_clock (now_calls (snd first))) (tick_clock 2))
    by (vm_compute; reflexivity).
  split; [exact H1 |]. split; [exact H2 |]. split; [exact H3 |].
  destruct (booth_answer_is_reused tick_clock live_source plain_isoformat "a-245"
              (Some "true") initial_world (answer_of (fst first)) H1 H2)
    as (t & Hc & Hre).
  fold first in Hc, Hre.
  assert (Ht : t = tick_clock 2) by (vm_compute in Hc; injection Hc as <-; reflexivity).
  subst t. rewrite (proj1 (Hre H3)). symmetry. exact H1.
Defined.
